(** * A shallow embedding of [src/weather.py]

    The program is a bilingual weather-query facade: two operations,
    [get_forecast] and [get_alerts], fetch a JSON document and render it as
    text, with the helpers [_units_map], [_code_to_text] and
    [_fmt_alert_item].

    Layout of this development:
    - [Py]: the fragment of the Python runtime the program relies on
      (text as sequences of code points, JSON values, truthiness, [dict.get],
      subscripting, iteration, [int()], [str()], raised exceptions);
    - the program itself, function by function, in source order;
    - helper lemmas, then the theorems about the program. *)

From Stdlib Require Import ZArith NArith String Ascii Bool Lia DecimalString List.
From Stdlib Require Import Floats.SpecFloat.
Import ListNotations.

Set Warnings "-register-all".

(* ================================================================== *)
(** * The Python layer                                                  *)
(* ================================================================== *)

Module Py.

(** ** Text

    A Python [str] is a sequence of Unicode code points.  Literals of the
    source are written [lit "..."]: the UTF-8 bytes of the Rocq literal are
    decoded to code points. *)

Definition char := N.
Definition str := list char.

Fixpoint utf8_decode (need : nat) (acc : N) (bs : list N) : str :=
  match bs with
  | [] => []
  | b :: rest =>
      match need with
      | O =>
          if (b <? 128)%N then b :: utf8_decode 0 0%N rest
          else if (b <? 224)%N then utf8_decode 1 (N.land b 31) rest
          else if (b <? 240)%N then utf8_decode 2 (N.land b 15) rest
          else utf8_decode 3 (N.land b 7) rest
      | S n =>
          let acc' := (acc * 64 + N.land b 63)%N in
          match n with
          | O => acc' :: utf8_decode 0 0%N rest
          | S _ => utf8_decode n acc' rest
          end
      end
  end.

Definition lit (s : string) : str :=
  utf8_decode 0 0%N (map N_of_ascii (list_ascii_of_string s)).

(** The line feed, written [\n] in the source. *)
Definition nl : str := [10%N].

Fixpoint str_eqb (a b : str) : bool :=
  match a, b with
  | [], [] => true
  | x :: a', y :: b' => (x =? y)%N && str_eqb a' b'
  | _, _ => false
  end.

(** [str.startswith] *)
Fixpoint startswith (s prefix : str) : bool :=
  match prefix, s with
  | [], _ => true
  | p :: prefix', c :: s' => (c =? p)%N && startswith s' prefix'
  | _ :: _, [] => false
  end.

(** [needle in hay] *)
Fixpoint contains (hay needle : str) : bool :=
  startswith hay needle ||
  match hay with
  | [] => false
  | _ :: hay' => contains hay' needle
  end.

(** [str.lower].  The program lowers a string only to compare it with
    ["imperial"] or to test the prefix ["es"]; the letters [A]-[Z] are the
    only code points whose lower-case form can take part in such a match, so
    the other case pairs of Unicode are left alone. *)
Definition lower_char (c : char) : char :=
  if ((65 <=? c) && (c <=? 90))%N then (c + 32)%N else c.

Definition lower (s : str) : str := map lower_char s.

(** [str.isspace] on one code point: the white space of [str.strip]. *)
Definition isspace (c : char) : bool :=
  (((9 <=? c) && (c <=? 13)) || ((28 <=? c) && (c <=? 32))
   || (c =? 133) || (c =? 160) || (c =? 5760)
   || ((8192 <=? c) && (c <=? 8202))
   || (c =? 8232) || (c =? 8233) || (c =? 8239) || (c =? 8287)
   || (c =? 12288))%N.

Fixpoint dropwhile (p : char -> bool) (s : str) : str :=
  match s with
  | [] => []
  | c :: s' => if p c then dropwhile p s' else s
  end.

Definition lstrip (s : str) : str := dropwhile isspace s.
Definition rstrip (s : str) : str := rev (dropwhile isspace (rev s)).

(** [str.strip()] *)
Definition strip (s : str) : str := rstrip (lstrip s).

(** [sep.join(parts)] *)
Fixpoint join (sep : str) (parts : list str) : str :=
  match parts with
  | [] => []
  | [p] => p
  | p :: rest => p ++ sep ++ join sep rest
  end.

(** [str(z)] for an [int]: decimal digits, with a minus sign below zero. *)
Definition str_of_Z (z : Z) : str := lit (NilZero.string_of_int (Z.to_int z)).

(** ** Exceptions and results *)

Inductive exn : Set :=
| TypeError | ValueError | OverflowError | AttributeError | IndexError | KeyError.

Inductive result (A : Type) : Type :=
| Ok (a : A)
| Raise (e : exn).

Arguments Ok {A} a.
Arguments Raise {A} e.

Definition bind {A B} (r : result A) (k : A -> result B) : result B :=
  match r with
  | Ok a => k a
  | Raise e => Raise e
  end.

Fixpoint mapM {A B} (f : A -> result B) (l : list A) : result (list B) :=
  match l with
  | [] => Ok []
  | x :: l' =>
      bind (f x) (fun y => bind (mapM f l') (fun ys => Ok (y :: ys)))
  end.

(** ** Values

    What [Response.json()] can hand to the program: [None], booleans,
    integers, floats (IEEE 754 binary64, as sign, mantissa and exponent),
    strings, lists and string-keyed dictionaries in insertion order. *)

Inductive value : Type :=
| VNone
| VBool (b : bool)
| VInt (z : Z)
| VFloat (f : spec_float)
| VStr (s : str)
| VList (l : list value)
| VDict (d : list (str * value)).

(** [bool(v)] *)
Definition truthy (v : value) : bool :=
  match v with
  | VNone => false
  | VBool b => b
  | VInt z => negb (z =? 0)%Z
  | VFloat (S754_zero _) => false
  | VFloat _ => true
  | VStr [] => false
  | VStr (_ :: _) => true
  | VList [] => false
  | VList (_ :: _) => true
  | VDict [] => false
  | VDict (_ :: _) => true
  end.

Fixpoint lookup (d : list (str * value)) (k : str) : option value :=
  match d with
  | [] => None
  | (k', v) :: d' => if str_eqb k' k then Some v else lookup d' k
  end.

(** [v.get(k, default)]: only a [dict] has the method. *)
Definition get (v : value) (k : str) (default : value) : result value :=
  match v with
  | VDict d =>
      Ok (match lookup d k with Some x => x | None => default end)
  | _ => Raise AttributeError
  end.

(** [v[i]] for an index [i >= 0].  The keys of a JSON object are strings,
    so an integer key is never found in a [dict]. *)
Definition index (v : value) (i : nat) : result value :=
  match v with
  | VList l =>
      match nth_error l i with Some x => Ok x | None => Raise IndexError end
  | VStr s =>
      match nth_error s i with
      | Some c => Ok (VStr [c])
      | None => Raise IndexError
      end
  | VDict _ => Raise KeyError
  | _ => Raise TypeError
  end.

(** The items a [for] loop (or [enumerate]) visits. *)
Definition iter (v : value) : result (list value) :=
  match v with
  | VList l => Ok l
  | VStr s => Ok (map (fun c => VStr [c]) s)
  | VDict d => Ok (map (fun kv => VStr (fst kv)) d)
  | _ => Raise TypeError
  end.

(** [int(f)] for a float: truncation toward zero. *)
Definition trunc_float (f : spec_float) : result Z :=
  match f with
  | S754_zero _ => Ok 0%Z
  | S754_infinity _ => Raise OverflowError
  | S754_nan => Raise ValueError
  | S754_finite s m e =>
      let a := Z.shiftl (Z.pos m) e in
      Ok (if s then (- a)%Z else a)
  end.

(** Three built-ins are only passed along by the program and are kept as an
    interface: the text of a float, the quoted form of a string inside the
    text of a list or dict, and [int()] applied to a string ([None] where it
    raises [ValueError]). *)
Class Builtins : Type := {
  repr_float : spec_float -> str;
  repr_str : str -> str;
  int_of_str : str -> option Z
}.

Section WithBuiltins.
Context {B : Builtins}.

(** [repr(v)] *)
Fixpoint repr (v : value) : str :=
  match v with
  | VNone => lit "None"
  | VBool true => lit "True"
  | VBool false => lit "False"
  | VInt z => str_of_Z z
  | VFloat f => repr_float f
  | VStr s => repr_str s
  | VList l => lit "[" ++ join (lit ", ") (map repr l) ++ lit "]"
  | VDict d =>
      lit "{"
      ++ join (lit ", ")
           (map (fun kv => match kv with
                           | (k, x) => repr_str k ++ lit ": " ++ repr x
                           end) d)
      ++ lit "}"
  end.

(** [str(v)], which is what an f-string field [{v}] inserts. *)
Definition str_of (v : value) : str :=
  match v with
  | VStr s => s
  | _ => repr v
  end.

(** [int(v)] *)
Definition int_of (v : value) : result Z :=
  match v with
  | VBool b => Ok (if b then 1 else 0)%Z
  | VInt z => Ok z
  | VFloat f => trunc_float f
  | VStr s =>
      match int_of_str s with Some z => Ok z | None => Raise ValueError end
  | VNone | VList _ | VDict _ => Raise TypeError
  end.

End WithBuiltins.

End Py.

Import Py.

Notation "x <- c ;; k" := (bind c (fun x => k))
  (at level 61, c at next level, right associativity).

(* ================================================================== *)
(** * The program                                                       *)
(* ================================================================== *)

(** ** Units: [_units_map] (lines 16-32)

    The returned dict always has the same three keys; it is a record here. *)

Record unit_set : Type := {
  temperature_unit : str;
  windspeed_unit : str;
  precipitation_unit : str
}.

Definition imperial_units : unit_set :=
  {| temperature_unit := lit "fahrenheit";
     windspeed_unit := lit "mph";
     precipitation_unit := lit "inch" |}.

Definition metric_units : unit_set :=
  {| temperature_unit := lit "celsius";
     windspeed_unit := lit "kmh";
     precipitation_unit := lit "mm" |}.

(** [u = (units or "metric").lower()], then the comparison with
    ["imperial"]. *)
Definition _units_map (units : str) : unit_set :=
  let u := lower (match units with [] => lit "metric" | _ :: _ => units end) in
  if str_eqb u (lit "imperial") then imperial_units else metric_units.

(** ** Condition codes: [_code_to_text] (lines 34-84) *)

Definition map_es : list (Z * str) :=
  [ (0, lit "Despejado");
    (1, lit "Mayormente despejado");
    (2, lit "Parcialmente nublado");
    (3, lit "Nublado");
    (45, lit "Niebla");
    (48, lit "Niebla con escarcha");
    (51, lit "Llovizna ligera");
    (53, lit "Llovizna moderada");
    (55, lit "Llovizna intensa");
    (56, lit "Llovizna congelante ligera");
    (57, lit "Llovizna congelante intensa");
    (61, lit "Lluvia ligera");
    (63, lit "Lluvia moderada");
    (65, lit "Lluvia fuerte");
    (66, lit "Lluvia helada ligera");
    (67, lit "Lluvia helada intensa");
    (71, lit "Nevadas ligeras");
    (73, lit "Nevadas moderadas");
    (75, lit "Nevadas fuertes");
    (77, lit "Granos de nieve");
    (80, lit "Chubascos ligeros");
    (81, lit "Chubascos moderados");
    (82, lit "Chubascos violentos");
    (85, lit "Chubascos de nieve ligeros");
    (86, lit "Chubascos de nieve fuertes");
    (95, lit "Tormenta");
    (96, lit "Tormenta con granizo ligero");
    (97, lit "Tormenta con granizo fuerte") ]%Z.

Definition map_en : list (Z * str) :=
  [ (0, lit "Clear"); (1, lit "Mostly clear"); (2, lit "Partly cloudy");
    (3, lit "Overcast");
    (45, lit "Fog"); (48, lit "Depositing rime fog");
    (51, lit "Light drizzle"); (53, lit "Moderate drizzle");
    (55, lit "Dense drizzle");
    (56, lit "Light freezing drizzle"); (57, lit "Freezing drizzle");
    (61, lit "Light rain"); (63, lit "Moderate rain"); (65, lit "Heavy rain");
    (66, lit "Light freezing rain"); (67, lit "Freezing rain");
    (71, lit "Light snow"); (73, lit "Moderate snow"); (75, lit "Heavy snow");
    (77, lit "Snow grains");
    (80, lit "Light showers"); (81, lit "Moderate showers");
    (82, lit "Violent showers");
    (85, lit "Light snow showers"); (86, lit "Heavy snow showers");
    (95, lit "Thunderstorm"); (96, lit "Thunderstorm with slight hail");
    (97, lit "…with heavy hail") ]%Z.

(** The key set of a table. *)
Definition keys (table : list (Z * str)) : list Z := map fst table.

(** [table.get(k, default)] *)
Fixpoint table_get (table : list (Z * str)) (k : Z) (default : str) : str :=
  match table with
  | [] => default
  | (k', text) :: table' =>
      if (k' =? k)%Z then text else table_get table' k default
  end.

(** [language.lower().startswith("es")] *)
Definition is_es (language : str) : bool :=
  startswith (lower language) (lit "es").

Section Program.
Context {B : Builtins}.

(** The arguments of [table.get] are evaluated first: [int(code)], which can
    raise, then the default [f"Código {code}"]. *)
Definition _code_to_text (code : value) (language : str) : result str :=
  let table := if is_es language then map_es else map_en in
  k <- int_of code ;;
  Ok (table_get table k (lit "Código " ++ str_of code)).

(** ** Alert records: [_fmt_alert_item] (lines 99-129) *)

(** [a.get(k1) or a.get(k2) or ... or default]: the first truthy value
    under the keys, in order, else the default. *)
Fixpoint probe (a : value) (ks : list str) (default : value) : result value :=
  match ks with
  | [] => Ok default
  | k :: ks' =>
      v <- get a k VNone ;;
      if truthy v then Ok v else probe a ks' default
  end.

(** [{v or 'N/D'}] *)
Definition or_text (v : value) (default : str) : str :=
  if truthy v then str_of v else default.

Definition _fmt_alert_item (a : value) (language : str) : result str :=
  headline <- probe a [lit "headline"; lit "event"] (VStr (lit "Alerta")) ;;
  severity <- probe a [lit "severity"; lit "level"] (VStr (lit "desconocida")) ;;
  description <-
    probe a [lit "description"; lit "instruction"; lit "text"]
      (VStr (lit "Sin descripción")) ;;
  sender <- probe a [lit "sender"; lit "provider"] (VStr []) ;;
  onset <- probe a [lit "onset"; lit "effective"] (VStr []) ;;
  expires <- probe a [lit "expires"; lit "ends"] (VStr []) ;;
  if is_es language then
    Ok (lit "⚠️ " ++ str_of headline ++ nl
        ++ lit "Severidad: " ++ str_of severity ++ nl
        ++ lit "Desde: " ++ or_text onset (lit "N/D")
        ++ lit "  Hasta: " ++ or_text expires (lit "N/D") ++ nl
        ++ lit "Fuente: " ++ or_text sender (lit "N/D") ++ nl
        ++ lit "Detalle: " ++ str_of description ++ nl)
  else
    Ok (lit "⚠️ " ++ str_of headline ++ nl
        ++ lit "Severity: " ++ str_of severity ++ nl
        ++ lit "From: " ++ or_text onset (lit "N/A")
        ++ lit "  Until: " ++ or_text expires (lit "N/A") ++ nl
        ++ lit "Source: " ++ or_text sender (lit "N/A") ++ nl
        ++ lit "Details: " ++ str_of description ++ nl).

(** ** The fetch: [_om_get] (lines 86-97)

    The HTTP client is outside the program.  [_om_get path params] is what
    the call hands back: the parsed body, or [None] after any failure of the
    request (the [except Exception] of the source). *)
Variable _om_get : str -> value -> value.

(** ** Forecast: [get_forecast] (lines 135-220) *)

(** Lines 152-155. *)
Definition clamp_days (days : Z) : Z :=
  let days := if (days <? 1)%Z then 1%Z else days in
  if (days >? 16)%Z then 16%Z else days.

(** The [params] dict of lines 158-177. *)
Definition forecast_params (latitude longitude : spec_float) (days : Z)
    (um : unit_set) : value :=
  VDict
    [ (lit "latitude", VFloat latitude);
      (lit "longitude", VFloat longitude);
      (lit "timezone", VStr (lit "auto"));
      (lit "forecast_days", VInt days);
      (lit "daily",
        VList [ VStr (lit "temperature_2m_max");
                VStr (lit "temperature_2m_min");
                VStr (lit "precipitation_sum");
                VStr (lit "windspeed_10m_max");
                VStr (lit "weathercode") ]);
      (lit "current",
        VList [ VStr (lit "temperature_2m");
                VStr (lit "windspeed_10m");
                VStr (lit "weathercode") ]);
      (lit "temperature_unit", VStr (temperature_unit um));
      (lit "windspeed_unit", VStr (windspeed_unit um));
      (lit "precipitation_unit", VStr (precipitation_unit um)) ].

(** Lines 185-194: the lines the [if cur:] block appends to [out]. *)
Definition current_lines (um : unit_set) (language : str) (cur : value)
    : result (list str) :=
  if truthy cur then
    tc <- get cur (lit "temperature_2m") VNone ;;
    wc <- get cur (lit "weathercode") VNone ;;
    ws <- get cur (lit "windspeed_10m") VNone ;;
    sky <- _code_to_text wc language ;;
    Ok [ lit "Ahora: " ++ str_of tc ++ lit "° "
         ++ lit "| Viento: " ++ str_of ws ++ lit " " ++ windspeed_unit um
         ++ lit " "
         ++ lit "| Cielo: " ++ sky ]
  else Ok [].

(** Lines 208-214: the f-string of one day.  [day_text] is the template,
    [day_line] evaluates its fields from left to right. *)
Definition day_text (um : unit_set) (d hi lo rain wind : value) (sky : str)
    : str :=
  str_of d ++ lit ": "
  ++ lit "máx " ++ str_of hi ++ lit "°, mín " ++ str_of lo ++ lit "°, "
  ++ lit "lluvia " ++ str_of rain ++ lit " " ++ precipitation_unit um
  ++ lit ", "
  ++ lit "viento máx " ++ str_of wind ++ lit " " ++ windspeed_unit um
  ++ lit ", "
  ++ sky.

Definition day_line (um : unit_set) (language : str) (i : nat) (d : value)
    (tmax tmin prcp wmax wcode : value) : result str :=
  hi <- index tmax i ;;
  lo <- index tmin i ;;
  rain <- index prcp i ;;
  wind <- index wmax i ;;
  code <- index wcode i ;;
  sky <- _code_to_text code language ;;
  Ok (day_text um d hi lo rain wind sky).

(** Lines 206-218: the loop over [enumerate(dates)], from index [i] on; a
    day whose line raises is skipped ([except Exception: continue]). *)
Fixpoint day_lines (um : unit_set) (language : str) (i : nat)
    (dates : list value) (tmax tmin prcp wmax wcode : value) : list str :=
  match dates with
  | [] => []
  | d :: dates' =>
      let rest := day_lines um language (S i) dates' tmax tmin prcp wmax wcode in
      match day_line um language i d tmax tmin prcp wmax wcode with
      | Ok line => line :: rest
      | Raise _ => rest
      end
  end.

(** [daily.get(k, []) or []] *)
Definition get_seq (daily : value) (k : str) : result value :=
  v <- get daily k (VList []) ;;
  Ok (if truthy v then v else VList []).

(** Lines 183-218: the list [out] when the loop has ended. *)
Definition forecast_out (data : value) (um : unit_set) (language : str)
    : result (list str) :=
  cur <- get data (lit "current") (VDict []) ;;
  now <- current_lines um language cur ;;
  daily <- get data (lit "daily") (VDict []) ;;
  dates <- get_seq daily (lit "time") ;;
  tmax <- get_seq daily (lit "temperature_2m_max") ;;
  tmin <- get_seq daily (lit "temperature_2m_min") ;;
  prcp <- get_seq daily (lit "precipitation_sum") ;;
  wmax <- get_seq daily (lit "windspeed_10m_max") ;;
  wcode <- get_seq daily (lit "weathercode") ;;
  items <- iter dates ;;
  Ok (now ++ [[]] ++ day_lines um language 0 items tmax tmin prcp wmax wcode).

Definition forecast_failed : str :=
  lit "No pude obtener el pronóstico de Open-Meteo.".

Definition get_forecast (latitude longitude : spec_float) (days : Z)
    (units language : str) : result str :=
  let days := clamp_days days in
  let um := _units_map units in
  let data :=
    _om_get (lit "forecast") (forecast_params latitude longitude days um) in
  if negb (truthy data) then Ok forecast_failed
  else
    out <- forecast_out data um language ;;
    Ok (strip (join nl out)).

(** ** Alerts: [get_alerts] (lines 223-252) *)

Definition alerts_params (latitude longitude : spec_float) : value :=
  VDict
    [ (lit "latitude", VFloat latitude);
      (lit "longitude", VFloat longitude);
      (lit "timezone", VStr (lit "auto")) ].

Definition alerts_failed : str :=
  lit "No pude obtener alertas (o el servicio no tiene cobertura para esta ubicación).".

Definition no_alerts : str :=
  lit "Sin alertas activas para estas coordenadas.".

(** Lines 247-252, for a truthy [data]. *)
Definition alerts_out (data : value) (language : str) : result str :=
  warnings <- probe data [lit "warnings"; lit "events"; lit "alerts"] (VList []) ;;
  if negb (truthy warnings) then Ok no_alerts
  else
    ws <- iter warnings ;;
    formatted <- mapM (fun w => _fmt_alert_item w language) ws ;;
    Ok (join (nl ++ lit "---" ++ nl) formatted).

Definition get_alerts (latitude longitude : spec_float) (language : str)
    : result str :=
  let data := _om_get (lit "warnings") (alerts_params latitude longitude) in
  if negb (truthy data) then Ok alerts_failed
  else alerts_out data language.

End Program.

(* ================================================================== *)
(** * Definitions for the statements                                    *)
(* ================================================================== *)

(** Section 4.1 of the specification: the unit resolver "lower-cases and
    trims the input; if it equals imperial returns the imperial set; any
    other value returns the metric set". *)
Definition resolve_spec (preference : str) : unit_set :=
  if str_eqb (strip (lower preference)) (lit "imperial")
  then imperial_units else metric_units.

(** Section 6 of the specification: "pick the first present, non-empty one"
    among the values under the given keys, in order. *)
Definition first_present_nonempty (d : list (str * value)) (ks : list str)
    : option value :=
  hd_error
    (filter truthy
       (flat_map (fun k => match lookup d k with
                           | Some v => [v]
                           | None => []
                           end) ks)).

Section Reading.
Context {B : Builtins}.

(** The day line of index [i] over six lists: present when every list has
    that index and [_code_to_text] returns on the code entry. *)
Definition day_at (um : unit_set) (language : str)
    (dates tmax tmin prcp wmax wcode : list value) (i : nat) : option str :=
  match nth_error dates i, nth_error tmax i, nth_error tmin i,
        nth_error prcp i, nth_error wmax i, nth_error wcode i with
  | Some d, Some hi, Some lo, Some rain, Some wind, Some code =>
      match _code_to_text code language with
      | Ok sky => Some (day_text um d hi lo rain wind sky)
      | Raise _ => None
      end
  | _, _, _, _, _, _ => None
  end.

End Reading.

Definition opt_list {A} (o : option A) : list A :=
  match o with
  | Some x => [x]
  | None => []
  end.


(** A fetch that answers [body] to a request for exactly [n] forecast
    days and fails (answers [None]) on every other request. *)
Definition serves_days (n : Z) (body : value) : str -> value -> value :=
  fun _ params =>
    match get params (lit "forecast_days") VNone with
    | Ok (VInt k) => if (k =? n)%Z then body else VNone
    | _ => VNone
    end.

(** The letter [p], or its capital: [c] is [p] up to the case of an ASCII
    letter. *)
Definition same_letter (c p : char) : Prop := c = p \/ (c + 32)%N = p.

(** A record, or a body, that is a dict. *)
Definition is_dict (v : value) : Prop := exists d, v = VDict d.

(** The two languages the program tells apart. *)
Definition canonical_language (language : str) : str :=
  if is_es language then lit "es" else lit "en".

(** The table [_code_to_text] selects for a language. *)
Definition table_of (language : str) : list (Z * str) :=
  if is_es language then map_es else map_en.

(** Every key [_fmt_alert_item] reads. *)
Definition alert_keys : list str :=
  [ lit "headline"; lit "event"; lit "severity"; lit "level";
    lit "description"; lit "instruction"; lit "text";
    lit "sender"; lit "provider"; lit "onset"; lit "effective";
    lit "expires"; lit "ends" ].

(** The block of a record in which none of those keys holds a truthy
    value. *)
Definition default_block (language : str) : str :=
  if is_es language then
    join nl [ lit "⚠️ Alerta";
              lit "Severidad: desconocida";
              lit "Desde: N/D  Hasta: N/D";
              lit "Fuente: N/D";
              lit "Detalle: Sin descripción" ] ++ nl
  else
    join nl [ lit "⚠️ Alerta";
              lit "Severity: desconocida";
              lit "From: N/A  Until: N/A";
              lit "Source: N/A";
              lit "Details: Sin descripción" ] ++ nl.

(** A text that is not empty and does not begin like the fallback of
    [_code_to_text]. *)
Definition plain_text (text : str) : bool :=
  negb (str_eqb text []) && negb (startswith text (lit "Código ")).

(** The key is missing from the dict, or holds a falsy value. *)
Definition absent_or_falsy (d : list (str * value)) (k : str) : Prop :=
  match lookup d k with
  | Some v => truthy v = false
  | None => True
  end.

(** A value a [for] loop accepts. *)
Definition iterable (v : value) : Prop :=
  match v with
  | VList _ | VStr _ | VDict _ => True
  | _ => False
  end.

(** The last character of the text is not white space. *)
Definition ends_plain (text : str) : bool :=
  match rev text with
  | c :: _ => negb (isspace c)
  | [] => false
  end.

(** The value under a key, [None] when the key is missing: [d.get(k)]. *)
Definition field (d : list (str * value)) (k : str) : value :=
  match lookup d k with
  | Some v => v
  | None => VNone
  end.

(** The body has no usable current block, or one whose code [int()]
    accepts. *)
Definition current_ok {B : Builtins} (d : list (str * value)) : Prop :=
  absent_or_falsy d (lit "current")
  \/ exists c, lookup d (lit "current") = Some (VDict c)
               /\ exists z, int_of (field c (lit "weathercode")) = Ok z.

(** The body has no "daily" entry, or a dict whose "time" entry is missing,
    falsy or iterable. *)
Definition daily_ok (d : list (str * value)) : Prop :=
  lookup d (lit "daily") = None
  \/ exists dd, lookup d (lit "daily") = Some (VDict dd)
                /\ (absent_or_falsy dd (lit "time")
                    \/ exists t, lookup dd (lit "time") = Some t
                                 /\ iterable t).

(** The body has no dates: no "daily" entry, or a dict without a truthy
    "time" entry. *)
Definition no_dates (d : list (str * value)) : Prop :=
  lookup d (lit "daily") = None
  \/ exists dd, lookup d (lit "daily") = Some (VDict dd)
                /\ absent_or_falsy dd (lit "time").

Section Halves.
Context {B : Builtins}.

(** The two halves of [forecast_out]: lines 184-194 and lines 196-218. *)
Definition current_part (data : value) (um : unit_set) (language : str)
    : result (list str) :=
  cur <- get data (lit "current") (VDict []) ;;
  current_lines um language cur.

Definition days_part (data : value) (um : unit_set) (language : str)
    : result (list str) :=
  daily <- get data (lit "daily") (VDict []) ;;
  dates <- get_seq daily (lit "time") ;;
  tmax <- get_seq daily (lit "temperature_2m_max") ;;
  tmin <- get_seq daily (lit "temperature_2m_min") ;;
  prcp <- get_seq daily (lit "precipitation_sum") ;;
  wmax <- get_seq daily (lit "windspeed_10m_max") ;;
  wcode <- get_seq daily (lit "weathercode") ;;
  items <- iter dates ;;
  Ok (day_lines um language 0 items tmax tmin prcp wmax wcode).

End Halves.

(** The separator of [get_alerts], line 252. *)
Definition alert_separator : str := nl ++ lit "---" ++ nl.

(* ================================================================== *)
(** * Documents for the examples                                        *)
(* ================================================================== *)

(** On the documents below, what the program returns does not depend on
    the three built-ins of [Builtins]: no float or container is printed and
    no string stands in the place of a code.  This instance lets the runs
    compute. *)
Definition example_builtins : Builtins :=
  {| repr_float := fun _ => lit "nan";
     repr_str := fun s => s;
     int_of_str := fun _ => None |}.

(** Madrid, at 40.5 and -3.75 degrees. *)
Definition lat_madrid : spec_float := S754_finite false 81 (-1).
Definition lon_madrid : spec_float := S754_finite true 15 (-2).

Definition one_day (code : value) : value :=
  VDict
    [ (lit "time", VList [VStr (lit "2024-01-01")]);
      (lit "temperature_2m_max", VList [VInt 10]);
      (lit "temperature_2m_min", VList [VInt 1]);
      (lit "precipitation_sum", VList [VInt 0]);
      (lit "windspeed_10m_max", VList [VInt 5]);
      (lit "weathercode", VList [code]) ].

(** [{"current": {}, "daily": {...one day...}}] *)
Definition doc_no_current : value :=
  VDict [ (lit "current", VDict []); (lit "daily", one_day (VInt 0)) ].

(** A current block and one day. *)
Definition doc_current_and_day : value :=
  VDict
    [ (lit "current",
        VDict [ (lit "temperature_2m", VInt 21);
                (lit "windspeed_10m", VInt 9);
                (lit "weathercode", VInt 3) ]);
      (lit "daily", one_day (VInt 0)) ].



(** [{"headline": "", "event": "Tormenta"}] *)
Definition alert_empty_headline : list (str * value) :=
  [ (lit "headline", VStr []); (lit "event", VStr (lit "Tormenta")) ].

(** [{"headline": "Aviso naranja", "event": "Tormenta"}] *)
Definition alert_both : list (str * value) :=
  [ (lit "headline", VStr (lit "Aviso naranja"));
    (lit "event", VStr (lit "Tormenta")) ].

(** What [get_forecast] returns on [doc_current_and_day], in Spanish and
    metric units. *)
Definition text_current_line : str :=
  lit "Ahora: 21° | Viento: 9 kmh | Cielo: Nublado".
Definition text_day_line : str :=
  lit "2024-01-01: máx 10°, mín 1°, lluvia 0 mm, viento máx 5 kmh, Despejado".
Definition text_current_and_day : str :=
  text_current_line ++ nl ++ nl ++ text_day_line.

Ltac bind_inv H :=
  match type of H with
  | bind ?c _ = Ok _ =>
      let E := fresh "E" in
      destruct c eqn:E; [cbn [bind] in H | discriminate H]
  end.

(* ================================================================== *)
(** * Lemmas on text                                                    *)
(* ================================================================== *)

Lemma str_eqb_eq (a b : str) : str_eqb a b = true <-> a = b.
Proof.
  revert b; induction a as [|x a IH]; intros [|y b]; simpl;
    try (split; [discriminate | discriminate]); try tauto.
  rewrite andb_true_iff, N.eqb_eq, IH.
  split; [intros [-> ->]; reflexivity | intros E; inversion E; auto].
Qed.

Lemma str_eqb_neq (a b : str) : str_eqb a b = false <-> a <> b.
Proof.
  rewrite <- str_eqb_eq. destruct (str_eqb a b); split; congruence.
Qed.

Lemma dropwhile_app_stop (p : char -> bool) (a : str) (c : char) (b : str) :
  p c = false -> dropwhile p (a ++ c :: b) = dropwhile p a ++ c :: b.
Proof.
  intros Hc. induction a as [|x a IH]; simpl.
  - now rewrite Hc.
  - destruct (p x); [exact IH | reflexivity].
Qed.

Lemma dropwhile_suffix (p : char -> bool) (s : str) :
  exists w, s = w ++ dropwhile p s.
Proof.
  induction s as [|x s [w IH]]; simpl.
  - now exists [].
  - destruct (p x).
    + exists (x :: w). simpl. now rewrite <- IH.
    + now exists [].
Qed.

Lemma dropwhile_head (p : char -> bool) (s : str) (c : char) (t : str) :
  dropwhile p s = c :: t -> p c = false.
Proof.
  induction s as [|x s IH]; simpl; [discriminate|].
  destruct (p x) eqn:E; [exact IH|].
  intros H; inversion H; subst; exact E.
Qed.

(** [rstrip] keeps everything up to the last character that is not white
    space. *)
Lemma rstrip_app_stop (a : str) (c : char) (b : str) :
  isspace c = false -> rstrip (a ++ c :: b) = a ++ c :: rstrip b.
Proof.
  intros Hc. unfold rstrip.
  rewrite rev_app_distr. simpl rev. rewrite <- app_assoc. simpl.
  rewrite dropwhile_app_stop by exact Hc.
  rewrite rev_app_distr. simpl. rewrite rev_involutive, <- app_assoc.
  reflexivity.
Qed.

Lemma rstrip_prefix (s : str) : exists w, s = rstrip s ++ w.
Proof.
  unfold rstrip. destruct (dropwhile_suffix isspace (rev s)) as [w Hw].
  exists (rev w). rewrite <- rev_app_distr, <- Hw. now rewrite rev_involutive.
Qed.

(** The text [strip] returns never begins with white space. *)
Lemma strip_head (s : str) (c : char) (t : str) :
  strip s = c :: t -> isspace c = false.
Proof.
  unfold strip, lstrip. intros H.
  destruct (rstrip_prefix (dropwhile isspace s)) as [w Hw].
  rewrite H in Hw. simpl in Hw.
  exact (dropwhile_head _ _ _ _ Hw).
Qed.

Lemma strip_no_leading_newline (s : str) : startswith (strip s) nl = false.
Proof.
  destruct (strip s) as [|c t] eqn:E; [reflexivity|].
  apply strip_head in E. simpl.
  destruct (N.eqb_spec c 10) as [->|]; [discriminate E | reflexivity].
Qed.

(** A text that begins with a character that is not white space loses
    nothing at the front. *)
Lemma strip_keeps_front (c : char) (s : str) :
  isspace c = false -> strip (c :: s) = rstrip (c :: s).
Proof.
  intros Hc. unfold strip, lstrip. simpl. now rewrite Hc.
Qed.

(* ================================================================== *)
(** * Lemmas on the tables                                              *)
(* ================================================================== *)

Lemma keys_aligned : keys map_es = keys map_en.
Proof. reflexivity. Qed.

Lemma table_get_miss (table : list (Z * str)) (k : Z) (default : str) :
  ~ In k (keys table) -> table_get table k default = default.
Proof.
  induction table as [|[k' text] table IH]; simpl; [reflexivity|].
  intros H. destruct (Z.eqb_spec k' k) as [->|_].
  - exfalso; apply H; now left.
  - apply IH. intros Hin; apply H; now right.
Qed.

Lemma table_get_hit (table : list (Z * str)) (k : Z) (default : str) :
  In k (keys table) -> In (k, table_get table k default) table.
Proof.
  induction table as [|[k' text] table IH]; simpl; [tauto|].
  intros [->|Hin].
  - rewrite Z.eqb_refl. now left.
  - destruct (Z.eqb_spec k' k) as [->|_]; [now left | right; auto].
Qed.

(* ================================================================== *)
(** * Theorems                                                          *)
(* ================================================================== *)

Section Facts.
Context {B : Builtins}.

(** ** Day count *)

Lemma clamp_days_max_min (days : Z) :
  clamp_days days = Z.max 1 (Z.min 16 days).
Proof.
  unfold clamp_days.
  destruct (Z.ltb_spec days 1); [|destruct (Z.gtb_spec days 16)];
    try destruct (Z.gtb_spec 1 16); lia.
Qed.

Lemma clamp_days_idem (days : Z) : clamp_days (clamp_days days) = clamp_days days.
Proof. rewrite !clamp_days_max_min. lia. Qed.

(** The fetch is consulted only at a request whose day count lies in
    [1, 16]: two fetches that agree on those requests give the same
    forecast. *)
Lemma get_forecast_fetches_clamped (om om' : str -> value -> value)
    (lat lon : spec_float) (days : Z) (units language : str) :
  (forall path params d,
      get params (lit "forecast_days") VNone = Ok (VInt d) ->
      (1 <= d <= 16)%Z -> om path params = om' path params) ->
  get_forecast om lat lon days units language
  = get_forecast om' lat lon days units language.
Proof.
  intros H. unfold get_forecast.
  assert (E : om (lit "forecast")
                (forecast_params lat lon (clamp_days days) (_units_map units))
              = om' (lit "forecast")
                  (forecast_params lat lon (clamp_days days) (_units_map units))).
  { apply H with (d := clamp_days days); [reflexivity|].
    rewrite clamp_days_max_min. lia. }
  now rewrite E.
Qed.

Lemma serves_days_forecast (n : Z) (body : value) (lat lon : spec_float)
    (days : Z) (um : unit_set) :
  serves_days n body (lit "forecast") (forecast_params lat lon days um)
  = if (days =? n)%Z then body else VNone.
Proof. reflexivity. Qed.

(** C7.  For every integer [days], [get_forecast] clamps the day count to
    [1, 16] before the request is issued: the one request it hands to the
    fetch carries [forecast_days = max 1 (min 16 days)], and its result is
    the rendering of what the fetch answers to that request.  So a fetch
    that serves only requests for that many days is as good as one that
    serves every request, and a fetch that serves only another day count
    gives the could-not-fetch message; the operation gives the same result
    as on the clamped argument, and [days = 20] behaves as [days = 16]. *)
Theorem get_forecast_clamps_days (om : str -> value -> value)
    (lat lon : spec_float) (days : Z) (units language : str) :
  clamp_days days = Z.max 1 (Z.min 16 days)
  /\ get (forecast_params lat lon (clamp_days days) (_units_map units))
         (lit "forecast_days") VNone
     = Ok (VInt (Z.max 1 (Z.min 16 days)))
  /\ get_forecast om lat lon days units language
     = get_forecast om lat lon (clamp_days days) units language
  /\ get_forecast om lat lon 20 units language
     = get_forecast om lat lon 16 units language
  /\ get_forecast om lat lon days units language
     = (let data :=
          om (lit "forecast")
            (forecast_params lat lon (Z.max 1 (Z.min 16 days))
               (_units_map units)) in
        if negb (truthy data) then Ok forecast_failed
        else
          out <- forecast_out data (_units_map units) language ;;
          Ok (strip (join nl out)))
  /\ (forall body,
        get_forecast (serves_days (Z.max 1 (Z.min 16 days)) body)
          lat lon days units language
        = get_forecast (fun _ _ => body) lat lon days units language)
  /\ (forall body n,
        n <> Z.max 1 (Z.min 16 days) ->
        get_forecast (serves_days n body) lat lon days units language
        = Ok forecast_failed).
Proof.
  split; [|split; [|split; [|split; [|split; [|split]]]]].
  - apply clamp_days_max_min.
  - rewrite <- clamp_days_max_min. reflexivity.
  - unfold get_forecast. now rewrite clamp_days_idem.
  - reflexivity.
  - unfold get_forecast. now rewrite clamp_days_max_min.
  - intros body. unfold get_forecast.
    rewrite serves_days_forecast, clamp_days_max_min, Z.eqb_refl.
    reflexivity.
  - intros body n Hn. unfold get_forecast.
    rewrite serves_days_forecast, clamp_days_max_min.
    destruct (Z.eqb_spec (Z.max 1 (Z.min 16 days)) n) as [E|_];
      [congruence | reflexivity].
Qed.

(** ** Condition codes *)

(** C9.  The Spanish and the English table have the same key set: a code is
    a key of one exactly when it is a key of the other. *)
Theorem tables_same_keys (code : Z) :
  In code (keys map_es) <-> In code (keys map_en).
Proof. rewrite keys_aligned. reflexivity. Qed.

Lemma code_to_text_int (z : Z) (language : str) :
  _code_to_text (VInt z) language
  = Ok (table_get (if is_es language then map_es else map_en) z
          (lit "Código " ++ str_of_Z z)).
Proof. reflexivity. Qed.

(** C3, as the code has it.  For every integer code that is in neither
    table the translator returns the text "Código " followed by the decimal
    code, whatever the language. *)
Theorem code_to_text_fallback (z : Z) (language : str) :
  ~ In z (keys map_es) ->
  _code_to_text (VInt z) language = Ok (lit "Código " ++ str_of_Z z).
Proof.
  intros H. rewrite code_to_text_int. f_equal.
  destruct (is_es language); apply table_get_miss; [|rewrite <- keys_aligned];
    exact H.
Qed.

(** ** Units *)

(** C6, as the code has it.  [_units_map] lower-cases its argument and does
    not trim it: it returns the imperial set exactly when the lower-cased
    argument is "imperial", and the metric set for every other string, the
    empty one included. *)
Theorem units_map_lower_only (units : str) :
  (lower units = lit "imperial" -> _units_map units = imperial_units)
  /\ (lower units <> lit "imperial" -> _units_map units = metric_units).
Proof.
  unfold _units_map. destruct units as [|c units].
  - split; intros H; [discriminate H | reflexivity].
  - split; intros H.
    + apply str_eqb_eq in H. now rewrite H.
    + apply str_eqb_neq in H. now rewrite H.
Qed.

(** ** The truthiness guard on the fetched body *)

(** C10.  When the fetch hands back a falsy body, the empty object [{}]
    included, both operations return their fixed could-not-fetch message,
    exactly as after a failed request (body [None]). *)
Theorem falsy_body_is_fetch_failure (data : value) (lat lon : spec_float)
    (days : Z) (units language : str) :
  truthy data = false ->
  get_forecast (fun _ _ => data) lat lon days units language = Ok forecast_failed
  /\ get_forecast (fun _ _ => data) lat lon days units language
     = get_forecast (fun _ _ => VNone) lat lon days units language
  /\ get_alerts (fun _ _ => data) lat lon language = Ok alerts_failed
  /\ get_alerts (fun _ _ => data) lat lon language
     = get_alerts (fun _ _ => VNone) lat lon language.
Proof.
  intros H. unfold get_forecast, get_alerts. rewrite H. simpl. auto.
Qed.

(** ** Exceptions *)

(** C1, at the failing input.  The fetched body
    [{"current": {"temperature_2m": 21}}] has a non-empty [current] without
    [weathercode]: [int(None)] raises [TypeError] inside [_code_to_text] and
    nothing catches it, so the exception leaves [get_forecast]. *)
Theorem get_forecast_raises_without_weathercode (lat lon : spec_float)
    (days : Z) (units language : str) :
  get_forecast
    (fun _ _ =>
       VDict [(lit "current", VDict [(lit "temperature_2m", VInt 21)])])
    lat lon days units language
  = Raise TypeError.
Proof. reflexivity. Qed.

(** ** Alert records *)

Lemma first_present_nonempty_truthy (d : list (str * value)) (ks : list str)
    (v : value) :
  first_present_nonempty d ks = Some v -> truthy v = true.
Proof.
  unfold first_present_nonempty.
  destruct (filter truthy _) as [|x l] eqn:E; simpl; [discriminate|].
  intros H; inversion H; subst.
  assert (Hin : In v (v :: l)) by now left.
  rewrite <- E in Hin. now apply filter_In in Hin.
Qed.

Lemma first_present_nonempty_cons (d : list (str * value)) (k : str)
    (ks : list str) :
  first_present_nonempty d (k :: ks)
  = match lookup d k with
    | Some v => if truthy v then Some v else first_present_nonempty d ks
    | None => first_present_nonempty d ks
    end.
Proof.
  unfold first_present_nonempty. simpl.
  destruct (lookup d k) as [v|]; simpl; [|reflexivity].
  destruct (truthy v); reflexivity.
Qed.

(** On a dict, the [or] chain of [get] calls picks the first present truthy
    value, else the default. *)
Lemma probe_dict (d : list (str * value)) (ks : list str) (default : value) :
  probe (VDict d) ks default
  = Ok (match first_present_nonempty d ks with
        | Some v => v
        | None => default
        end).
Proof.
  induction ks as [|k ks IH]; [reflexivity|].
  rewrite first_present_nonempty_cons. simpl.
  destruct (lookup d k) as [v|]; simpl.
  - destruct (truthy v); [reflexivity | exact IH].
  - exact IH.
Qed.

(** C8, as the code has it.  In a record that has both the "headline" and
    the "event" key, the headline field is the value under "headline" when
    that value is truthy; when it is falsy (empty, null, zero) the field is
    the value under "event" if that one is truthy, else "Alerta".  The field
    is the first line of the block, after the warning sign. *)
Theorem headline_priority (d : list (str * value)) (language : str)
    (hv ev : value) :
  lookup d (lit "headline") = Some hv ->
  lookup d (lit "event") = Some ev ->
  exists rest,
    _fmt_alert_item (VDict d) language
    = Ok (lit "⚠️ "
          ++ str_of (if truthy hv then hv
                     else if truthy ev then ev
                     else VStr (lit "Alerta"))
          ++ nl ++ rest).
Proof.
  intros Hh He. unfold _fmt_alert_item.
  rewrite !probe_dict. cbn [bind].
  rewrite !first_present_nonempty_cons, Hh, He.
  replace (first_present_nonempty d []) with (@None value) by reflexivity.
  destruct (is_es language); eexists;
    (destruct (truthy hv); [reflexivity|]; destruct (truthy ev); reflexivity).
Qed.

(** C5, as the code has it.  For every non-empty response object,
    [get_alerts] takes the first present truthy value among the keys
    "warnings", "events", "alerts", in that order; when there is none it
    returns the fixed no-active-alerts message, which differs from the
    could-not-fetch message; [{"events": []}] and [{"warnings": null}] both
    give the no-active-alerts message. *)
Theorem get_alerts_selects_records (entry : str * value)
    (d : list (str * value)) (lat lon : spec_float) (language : str) :
  get_alerts (fun _ _ => VDict (entry :: d)) lat lon language
  = match first_present_nonempty (entry :: d)
            [lit "warnings"; lit "events"; lit "alerts"] with
    | None => Ok no_alerts
    | Some records =>
        ws <- iter records ;;
        formatted <- mapM (fun w => _fmt_alert_item w language) ws ;;
        Ok (join (nl ++ lit "---" ++ nl) formatted)
    end
  /\ no_alerts <> alerts_failed
  /\ get_alerts (fun _ _ => VDict [(lit "events", VList [])]) lat lon language
     = Ok no_alerts
  /\ get_alerts (fun _ _ => VDict [(lit "warnings", VNone)]) lat lon language
     = Ok no_alerts.
Proof.
  split; [|split; [|split]].
  - unfold get_alerts, alerts_out. cbn [truthy negb].
    rewrite probe_dict. cbn [bind].
    destruct (first_present_nonempty _ _) as [records|] eqn:E.
    + apply first_present_nonempty_truthy in E. now rewrite E.
    + reflexivity.
  - intros H. vm_compute in H. discriminate H.
  - reflexivity.
  - reflexivity.
Qed.

(** ** The per-day loop *)

Lemma day_line_lists (um : unit_set) (language : str) (i : nat) (d : value)
    (dates tmax tmin prcp wmax wcode : list value) :
  nth_error dates i = Some d ->
  match day_line um language i d (VList tmax) (VList tmin) (VList prcp)
          (VList wmax) (VList wcode) with
  | Ok line => [line]
  | Raise _ => []
  end
  = opt_list (day_at um language dates tmax tmin prcp wmax wcode i).
Proof.
  intros Hd. unfold day_line, day_at, index. rewrite Hd.
  destruct (nth_error tmax i); [|reflexivity].
  destruct (nth_error tmin i); [|reflexivity].
  destruct (nth_error prcp i); [|reflexivity].
  destruct (nth_error wmax i); [|reflexivity].
  destruct (nth_error wcode i) as [code|]; [|reflexivity].
  cbn [bind]. destruct (_code_to_text code language); reflexivity.
Qed.

Lemma day_lines_from (um : unit_set) (language : str)
    (tmax tmin prcp wmax wcode : list value) (dates pre : list value) :
  day_lines um language (length pre) dates (VList tmax) (VList tmin)
    (VList prcp) (VList wmax) (VList wcode)
  = flat_map
      (fun i => opt_list
                  (day_at um language (pre ++ dates) tmax tmin prcp wmax wcode i))
      (seq (length pre) (length dates)).
Proof.
  revert pre. induction dates as [|d dates IH]; intros pre; [reflexivity|].
  cbn [day_lines length seq flat_map].
  rewrite <- (day_line_lists um language (length pre) d (pre ++ d :: dates)).
  2:{ rewrite nth_error_app2 by lia. now rewrite Nat.sub_diag. }
  specialize (IH (pre ++ [d])).
  rewrite <- app_assoc in IH. simpl in IH.
  rewrite length_app in IH. simpl in IH. rewrite Nat.add_1_r in IH.
  rewrite <- IH.
  destruct (day_line _ _ _ _ _ _ _ _ _); reflexivity.
Qed.



(** ** The separator and the final trim *)

Lemma join_cons (sep p : str) (rest : list str) :
  exists z, join sep (p :: rest) = p ++ z.
Proof.
  destruct rest as [|q rest].
  - exists []. simpl. now rewrite app_nil_r.
  - eexists. reflexivity.
Qed.

(** A leading empty line does not survive [strip]. *)
Lemma strip_join_blank_first (ds : list str) :
  strip (join nl ([] :: ds)) = strip (join nl ds).
Proof. destruct ds; reflexivity. Qed.

Lemma current_lines_shape (um : unit_set) (language : str) (cur : value)
    (now : list str) :
  current_lines um language cur = Ok now ->
  (truthy cur = false -> now = [])
  /\ (truthy cur = true -> exists rest, now = [lit "Ahora: " ++ rest]).
Proof.
  unfold current_lines. destruct (truthy cur); intros H.
  - split; [discriminate|]. intros _.
    repeat bind_inv H. inversion H. eexists. reflexivity.
  - inversion H. split; [reflexivity | discriminate].
Qed.

Lemma day_lines_shape (um : unit_set) (language : str)
    (dates : list value) (tmax tmin prcp wmax wcode : value) (i : nat) :
  Forall (fun line => exists d rest, line = str_of d ++ lit ": " ++ rest)
    (day_lines um language i dates tmax tmin prcp wmax wcode).
Proof.
  revert i. induction dates as [|d dates IH]; intros i; simpl; [constructor|].
  destruct (day_line um language i d tmax tmin prcp wmax wcode) as [line|e]
    eqn:E; [|apply IH].
  constructor; [|apply IH].
  unfold day_line in E. repeat bind_inv E. inversion E.
  unfold day_text. eexists. eexists. reflexivity.
Qed.

Lemma forecast_out_inv (data : value) (um : unit_set) (language : str)
    (lines : list str) :
  forecast_out data um language = Ok lines ->
  exists cur now ds,
    get data (lit "current") (VDict []) = Ok cur
    /\ current_lines um language cur = Ok now
    /\ lines = now ++ [[]] ++ ds
    /\ Forall (fun line => exists d rest, line = str_of d ++ lit ": " ++ rest)
         ds.
Proof.
  unfold forecast_out. intros H.
  destruct (get data (lit "current") (VDict [])) as [cur|] eqn:Ecur;
    [cbn [bind] in H | discriminate H].
  destruct (current_lines um language cur) as [now|] eqn:Enow;
    [cbn [bind] in H | discriminate H].
  repeat bind_inv H. injection H as <-.
  exists cur, now. eexists. split; [reflexivity|]. split; [exact Enow|].
  split; [reflexivity|]. apply day_lines_shape.
Qed.

(** A text whose first character is not white space and that has another
    such character [c] further on is kept by [strip] up to [c]. *)
Lemma strip_app_stop (a b : str) (c : char) :
  (exists h t, a = h :: t /\ isspace h = false) ->
  isspace c = false ->
  strip (a ++ c :: b) = a ++ c :: rstrip b.
Proof.
  intros (h & t & -> & Hh) Hc. cbn [app].
  rewrite strip_keeps_front by exact Hh.
  rewrite app_comm_cons. now apply rstrip_app_stop.
Qed.

Lemma join_current_blank_days (a l1 : str) (ds : list str) :
  join nl ([a] ++ [[]] ++ l1 :: ds) = a ++ nl ++ nl ++ join nl (l1 :: ds).
Proof. reflexivity. Qed.

Lemma strip_current_then_days (lr : str) (d : value) (y : str)
    (ds : list str) :
  exists rest,
    strip (join nl ([lit "Ahora: " ++ lr] ++ [[]]
                    ++ (str_of d ++ lit ": " ++ y) :: ds))
    = (lit "Ahora: " ++ lr) ++ nl ++ nl ++ rest.
Proof.
  rewrite join_current_blank_days.
  destruct (join_cons nl (str_of d ++ lit ": " ++ y) ds) as [z ->].
  exists (str_of d ++ lit ":" ++ rstrip (lit " " ++ y ++ z)).
  replace ((lit "Ahora: " ++ lr) ++ nl ++ nl
           ++ (str_of d ++ lit ": " ++ y) ++ z)
    with (((lit "Ahora: " ++ lr) ++ nl ++ nl ++ str_of d)
          ++ 58%N :: (lit " " ++ y ++ z))
    by (rewrite <- !app_assoc; reflexivity).
  rewrite strip_app_stop.
  - rewrite <- !app_assoc. reflexivity.
  - eexists. eexists. split; reflexivity.
  - reflexivity.
Qed.

(** C2, as the code has it.  The empty separator line is appended to the
    line list unconditionally, before the day lines; the returned text is the
    trimmed join of that list.  When [current] is absent or falsy no
    "Ahora:" line is produced and the trim removes the separator: the result
    is the trimmed join of the day lines alone and does not begin with a
    line feed.  When the current line is produced and at least one day line
    follows, the result is the current line, the blank line, and the rest. *)
Theorem separator_after_trim (data : value) (lat lon : spec_float) (days : Z)
    (units language : str) (out : str) :
  truthy data = true ->
  get_forecast (fun _ _ => data) lat lon days units language = Ok out ->
  exists cur now ds,
    get data (lit "current") (VDict []) = Ok cur
    /\ current_lines (_units_map units) language cur = Ok now
    /\ forecast_out data (_units_map units) language = Ok (now ++ [[]] ++ ds)
    /\ out = strip (join nl (now ++ [[]] ++ ds))
    /\ (truthy cur = false ->
        now = [] /\ out = strip (join nl ds) /\ startswith out nl = false)
    /\ (truthy cur = true -> ds <> [] ->
        exists line rest, now = [line] /\ out = line ++ nl ++ nl ++ rest).
Proof.
  intros Ht H. unfold get_forecast in H. rewrite Ht in H. cbn [negb] in H.
  destruct (forecast_out data (_units_map units) language) as [lines|] eqn:Ef;
    [cbn [bind] in H | discriminate H].
  injection H as <-.
  destruct (forecast_out_inv _ _ _ _ Ef)
    as (cur & now & ds & Hcur & Hnow & -> & Hds).
  destruct (current_lines_shape _ _ _ _ Hnow) as [Hoff Hon].
  exists cur, now, ds.
  split; [assumption|]. split; [assumption|].
  split; [reflexivity|]. split; [reflexivity|]. split.
  - intros Hf. rewrite (Hoff Hf). cbn [app].
    split; [reflexivity|]. split.
    + apply strip_join_blank_first.
    + apply strip_no_leading_newline.
  - intros Hc Hne. destruct (Hon Hc) as [lr ->].
    destruct ds as [|l1 ds']; [congruence|].
    apply Forall_inv in Hds. destruct Hds as (d & y & ->).
    destruct (strip_current_then_days lr d y ds') as [rest Hrest].
    exists (lit "Ahora: " ++ lr), rest. split; [reflexivity | exact Hrest].
Qed.

End Facts.

(* ================================================================== *)
(** * Further properties of the program                                 *)
(* ================================================================== *)

Section More.
Context {B : Builtins}.

(** ** Language *)

Lemma is_es_canonical (language : str) :
  is_es (canonical_language language) = is_es language.
Proof.
  unfold canonical_language. destruct (is_es language) eqn:E; reflexivity.
Qed.

Lemma code_to_text_language (code : value) (l1 l2 : str) :
  is_es l1 = is_es l2 -> _code_to_text code l1 = _code_to_text code l2.
Proof. unfold _code_to_text. now intros ->. Qed.

Lemma fmt_alert_item_language (a : value) (l1 l2 : str) :
  is_es l1 = is_es l2 -> _fmt_alert_item a l1 = _fmt_alert_item a l2.
Proof. unfold _fmt_alert_item. now intros ->. Qed.

Lemma current_lines_language (um : unit_set) (cur : value) (l1 l2 : str) :
  is_es l1 = is_es l2 -> current_lines um l1 cur = current_lines um l2 cur.
Proof. unfold current_lines, _code_to_text. now intros ->. Qed.

Lemma day_lines_language (um : unit_set) (l1 l2 : str) (dates : list value)
    (tmax tmin prcp wmax wcode : value) (i : nat) :
  is_es l1 = is_es l2 ->
  day_lines um l1 i dates tmax tmin prcp wmax wcode
  = day_lines um l2 i dates tmax tmin prcp wmax wcode.
Proof.
  intros H. revert i. induction dates as [|d dates IH]; intros i;
    [reflexivity|].
  cbn [day_lines]. rewrite IH.
  replace (day_line um l1 i d tmax tmin prcp wmax wcode)
    with (day_line um l2 i d tmax tmin prcp wmax wcode); [reflexivity|].
  unfold day_line, _code_to_text. now rewrite H.
Qed.

Lemma mapM_ext {X Y} (f g : X -> result Y) (l : list X) :
  (forall x, f x = g x) -> mapM f l = mapM g l.
Proof.
  intros H. induction l as [|x l IH]; [reflexivity|].
  simpl. now rewrite H, IH.
Qed.

Lemma forecast_out_language (data : value) (um : unit_set) (l1 l2 : str) :
  is_es l1 = is_es l2 -> forecast_out data um l1 = forecast_out data um l2.
Proof.
  intros H. unfold forecast_out.
  destruct (get data (lit "current") (VDict [])) as [cur|]; [|reflexivity].
  cbn [bind]. rewrite (current_lines_language um cur l1 l2 H).
  destruct (current_lines um l2 cur) as [now|]; [|reflexivity].
  cbn [bind].
  repeat match goal with
         | |- bind ?c _ = bind ?c _ =>
             destruct c; [cbn [bind] | reflexivity]
         end.
  now rewrite (day_lines_language um l1 l2 _ _ _ _ _ _ 0 H).
Qed.

Lemma operations_language (om : str -> value -> value)
    (lat lon : spec_float) (days : Z) (units : str) (l1 l2 : str) :
  is_es l1 = is_es l2 ->
  get_forecast om lat lon days units l1
  = get_forecast om lat lon days units l2
  /\ get_alerts om lat lon l1 = get_alerts om lat lon l2.
Proof.
  intros H. split.
  - unfold get_forecast.
    now rewrite (forecast_out_language _ _ l1 l2 H).
  - unfold get_alerts, alerts_out.
    destruct (negb (truthy _)); [reflexivity|].
    destruct (probe _ _ _) as [warnings|]; [cbn [bind] | reflexivity].
    destruct (negb (truthy warnings)); [reflexivity|].
    destruct (iter warnings) as [ws|]; [cbn [bind] | reflexivity].
    now rewrite (mapM_ext _ _ ws (fun w => fmt_alert_item_language w l1 l2 H)).
Qed.

(** X1.  The language argument matters only through the test
    [language.lower().startswith("es")]: every language string gives, in
    each function that takes one, the result of "es" when the test holds and
    of "en" when it does not. *)
Theorem language_is_es_or_en (om : str -> value -> value)
    (lat lon : spec_float) (days : Z) (units language : str)
    (code a : value) :
  (canonical_language language = lit "es"
   \/ canonical_language language = lit "en")
  /\ _code_to_text code language
     = _code_to_text code (canonical_language language)
  /\ _fmt_alert_item a language
     = _fmt_alert_item a (canonical_language language)
  /\ get_forecast om lat lon days units language
     = get_forecast om lat lon days units (canonical_language language)
  /\ get_alerts om lat lon language
     = get_alerts om lat lon (canonical_language language).
Proof.
  assert (H := is_es_canonical language). symmetry in H.
  destruct (operations_language om lat lon days units _ _ H) as [Hf Ha].
  split; [|split; [|split; [|split]]]; try assumption.
  - unfold canonical_language. destruct (is_es language); auto.
  - now apply code_to_text_language.
  - now apply fmt_alert_item_language.
Qed.

(** ** Units *)

Lemma lower_char_letter (c p : char) :
  (97 <= p <= 122)%N -> lower_char c = p <-> same_letter c p.
Proof.
  intros Hp. unfold lower_char, same_letter.
  destruct ((65 <=? c) && (c <=? 90))%N eqn:E.
  - apply andb_true_iff in E. rewrite !N.leb_le in E. lia.
  - apply andb_false_iff in E. rewrite !N.leb_gt in E. lia.
Qed.

Lemma lower_letters (u p : str) :
  Forall (fun q => 97 <= q <= 122)%N p ->
  lower u = p <-> Forall2 same_letter u p.
Proof.
  intros Hp. revert u. induction Hp as [|q p Hq _ IH]; intros [|c u].
  - split; [constructor | reflexivity].
  - split; [discriminate | intros H; inversion H].
  - split; [discriminate | intros H; inversion H].
  - change (lower (c :: u)) with (lower_char c :: lower u). split.
    + intros H. injection H as Hc Hu. constructor.
      * now apply lower_char_letter.
      * now apply IH.
    + intros H. inversion H as [|? ? ? ? Hc Hu]; subst.
      apply lower_char_letter in Hc; [|exact Hq]. apply IH in Hu.
      now rewrite Hc, Hu.
Qed.

Lemma imperial_letters :
  Forall (fun q => 97 <= q <= 122)%N (lit "imperial").
Proof.
  change (lit "imperial") with [105; 109; 112; 101; 114; 105; 97; 108]%N.
  repeat constructor; lia.
Qed.

(** X2.  [_units_map] returns the imperial set exactly for the spellings of
    "imperial" in lower-case and capital letters (eight characters, each
    the letter or its capital), and the metric set for every other string,
    the empty one included. *)
Theorem units_map_imperial_spellings (units : str) :
  (_units_map units = imperial_units
   <-> Forall2 same_letter units (lit "imperial"))
  /\ (_units_map units = metric_units
      <-> ~ Forall2 same_letter units (lit "imperial")).
Proof.
  assert (Hne : imperial_units <> metric_units).
  { intros H. vm_compute in H. discriminate H. }
  rewrite <- (lower_letters units _ imperial_letters).
  unfold _units_map. destruct units as [|c units].
  - assert (E : lower [] <> lit "imperial") by (intros H; discriminate H).
    replace (str_eqb (lower (lit "metric")) (lit "imperial")) with false
      by reflexivity.
    split; split; intros H; try reflexivity; try exact E; congruence.
  - destruct (str_eqb (lower (c :: units)) (lit "imperial")) eqn:E.
    + apply str_eqb_eq in E.
      split; split; intros H; try reflexivity; try exact E; congruence.
    + apply str_eqb_neq in E.
      split; split; intros H; try reflexivity; try exact E; congruence.
Qed.

(** ** Known codes *)

Lemma nodup_keys_es : NoDup (keys map_es).
Proof.
  unfold keys, map_es. cbn [map fst].
  repeat (constructor; [cbn [In]; intuition discriminate|]). constructor.
Qed.

Lemma nodup_keys_functional (table : list (Z * str)) (k : Z) (a b : str) :
  NoDup (keys table) -> In (k, a) table -> In (k, b) table -> a = b.
Proof.
  induction table as [|[k' t] table IH]; simpl; [tauto|].
  intros Hnd. inversion Hnd as [|? ? Hnotin Hnd']; subst.
  intros [Ea|Ha] [Eb|Hb].
  - congruence.
  - exfalso. apply Hnotin. inversion Ea; subst.
    change k with (fst (k, b)). now apply in_map.
  - exfalso. apply Hnotin. inversion Eb; subst.
    change k with (fst (k, a)). now apply in_map.
  - now apply IH.
Qed.

Lemma table_texts_plain (language : str) :
  forall k text, In (k, text) (table_of language) -> plain_text text = true.
Proof.
  assert (H : forallb (fun kv => plain_text (snd kv)) (table_of language)
              = true).
  { unfold table_of. destruct (is_es language); vm_compute; reflexivity. }
  rewrite forallb_forall in H. intros k text Hin. exact (H (k, text) Hin).
Qed.

Lemma startswith_app (p x : str) : startswith (p ++ x) p = true.
Proof.
  induction p as [|c p IH]; [destruct x; reflexivity|].
  simpl. now rewrite N.eqb_refl.
Qed.

(** X3.  A code of the key set is translated to the one text its table has
    for it, in either language; the text is not empty and is not the
    fallback. *)
Theorem known_code_text (z : Z) (language : str) :
  In z (keys map_es) ->
  exists text,
    _code_to_text (VInt z) language = Ok text
    /\ In (z, text) (table_of language)
    /\ (forall other, In (z, other) (table_of language) -> other = text)
    /\ text <> []
    /\ text <> lit "Código " ++ str_of_Z z.
Proof.
  intros Hin. rewrite code_to_text_int. fold (table_of language).
  set (text := table_get (table_of language) z _).
  assert (Hk : In z (keys (table_of language))).
  { unfold table_of. destruct (is_es language);
      [|rewrite <- keys_aligned]; exact Hin. }
  assert (Ht : In (z, text) (table_of language)) by now apply table_get_hit.
  assert (Hnd : NoDup (keys (table_of language))).
  { unfold table_of. destruct (is_es language);
      [|rewrite <- keys_aligned]; exact nodup_keys_es. }
  assert (Hp := table_texts_plain language z text Ht).
  unfold plain_text in Hp. apply andb_true_iff in Hp. destruct Hp as [Hne Hst].
  exists text. split; [reflexivity|]. split; [exact Ht|]. split; [|split].
  - intros other Ho. exact (nodup_keys_functional _ _ _ _ Hnd Ho Ht).
  - intros E. rewrite E in Hne. discriminate Hne.
  - intros E. rewrite E, startswith_app in Hst. discriminate Hst.
Qed.

(** ** Alert blocks *)

Lemma probe_non_dict (a : value) (k : str) (ks : list str) (default : value) :
  ~ is_dict a -> probe a (k :: ks) default = Raise AttributeError.
Proof.
  intros H. destruct a; try reflexivity. exfalso. apply H. now eexists.
Qed.

Lemma fmt_alert_item_dict (d : list (str * value)) (language : str) :
  exists body,
    _fmt_alert_item (VDict d) language = Ok (lit "⚠️ " ++ body ++ nl).
Proof.
  unfold _fmt_alert_item. rewrite !probe_dict. cbn [bind].
  destruct (is_es language); eexists; f_equal; f_equal;
    repeat rewrite app_assoc; reflexivity.
Qed.

Lemma fmt_alert_item_non_dict (a : value) (language : str) :
  ~ is_dict a -> _fmt_alert_item a language = Raise AttributeError.
Proof. intros H. unfold _fmt_alert_item. now rewrite probe_non_dict. Qed.

(** X4.  [_fmt_alert_item] returns a block for every dict, whatever its
    keys: the block begins with the warning sign and ends with a line feed.
    For a record that is not a dict it raises [AttributeError]. *)
Theorem fmt_alert_item_dict_or_raise (a : value) (language : str) :
  (is_dict a ->
   exists body, _fmt_alert_item a language = Ok (lit "⚠️ " ++ body ++ nl))
  /\ (~ is_dict a -> _fmt_alert_item a language = Raise AttributeError).
Proof.
  split.
  - intros [d ->]. apply fmt_alert_item_dict.
  - apply fmt_alert_item_non_dict.
Qed.

Lemma first_present_nonempty_none (d : list (str * value)) (ks : list str) :
  (forall k, In k ks -> absent_or_falsy d k) ->
  first_present_nonempty d ks = None.
Proof.
  induction ks as [|k ks IH]; intros H; [reflexivity|].
  rewrite first_present_nonempty_cons.
  assert (Hk := H k (or_introl eq_refl)). unfold absent_or_falsy in Hk.
  destruct (lookup d k) as [v|].
  - rewrite Hk. apply IH. intros k' Hin. apply H. now right.
  - apply IH. intros k' Hin. apply H. now right.
Qed.

(** X5.  A record in which none of the keys the formatter reads holds a
    truthy value (the empty record among them) gives the default block:
    "Alerta", "desconocida" and "Sin descripción" in both languages, with
    "N/D" in Spanish and "N/A" in English for the times and the source. *)
Theorem fmt_alert_item_defaults (d : list (str * value)) (language : str) :
  (forall k, In k alert_keys -> absent_or_falsy d k) ->
  _fmt_alert_item (VDict d) language = Ok (default_block language).
Proof.
  intros H. unfold _fmt_alert_item. rewrite !probe_dict.
  rewrite !first_present_nonempty_none;
    try (intros k Hin; apply H; unfold alert_keys;
         cbn [In] in *; intuition auto).
  cbn [bind]. unfold default_block.
  destruct (is_es language); reflexivity.
Qed.

(** ** Record lists *)

Lemma mapM_Forall2 {X Y} (f : X -> result Y) (l : list X) (ys : list Y) :
  mapM f l = Ok ys <-> Forall2 (fun x y => f x = Ok y) l ys.
Proof.
  revert ys. induction l as [|x l IH]; intros ys; simpl.
  - split.
    + intros H. injection H as <-. constructor.
    + intros H. inversion H. reflexivity.
  - split.
    + destruct (f x) as [y|] eqn:Ex; [cbn [bind] | discriminate].
      destruct (mapM f l) as [ys'|] eqn:El; [cbn [bind] | discriminate].
      intros H. injection H as <-. constructor; [exact Ex | now apply IH].
    + intros H. inversion H as [|? y ? ys' Hx Hl]; subst.
      rewrite Hx. cbn [bind]. apply IH in Hl. rewrite Hl. reflexivity.
Qed.

Lemma mapM_fmt_dicts (language : str) (ws : list value) :
  Forall is_dict ws ->
  exists blocks, mapM (fun w => _fmt_alert_item w language) ws = Ok blocks.
Proof.
  induction 1 as [|w ws [d ->] _ [blocks IH]]; [now exists []|].
  destruct (fmt_alert_item_dict d language) as [body Hb].
  eexists. simpl. rewrite Hb. cbn [bind]. rewrite IH. reflexivity.
Qed.

Lemma is_dict_dec (v : value) : is_dict v \/ ~ is_dict v.
Proof.
  destruct v; try (right; intros [d H]; discriminate H).
  left. now eexists.
Qed.

Lemma mapM_fmt_non_dict (language : str) (ws : list value) :
  Exists (fun w => ~ is_dict w) ws ->
  mapM (fun w => _fmt_alert_item w language) ws = Raise AttributeError.
Proof.
  induction ws as [|w ws IH]; intros H; [inversion H|].
  simpl. destruct (is_dict_dec w) as [[d ->]|Hn].
  - destruct (fmt_alert_item_dict d language) as [body ->]. cbn [bind].
    inversion H as [? ? Hw|? ? Hws]; subst.
    + exfalso. apply Hw. now eexists.
    + now rewrite (IH Hws).
  - now rewrite (fmt_alert_item_non_dict _ language Hn).
Qed.

Lemma get_alerts_selected (entry : str * value) (d : list (str * value))
    (lat lon : spec_float) (language : str) (records : value) :
  first_present_nonempty (entry :: d)
    [lit "warnings"; lit "events"; lit "alerts"] = Some records ->
  get_alerts (fun _ _ => VDict (entry :: d)) lat lon language
  = (ws <- iter records ;;
     formatted <- mapM (fun w => _fmt_alert_item w language) ws ;;
     Ok (join alert_separator formatted)).
Proof.
  intros H. unfold get_alerts, alerts_out. cbn [truthy negb].
  rewrite probe_dict, H. cbn [bind].
  now rewrite (first_present_nonempty_truthy _ _ _ H).
Qed.

(** X6.  When the selected record list holds dicts only, [get_alerts]
    returns the blocks of the records, one per record and in their order,
    joined by the separator line. *)
Theorem get_alerts_formats_every_record (entry : str * value)
    (d : list (str * value)) (lat lon : spec_float) (language : str)
    (records : value) (ws : list value) :
  first_present_nonempty (entry :: d)
    [lit "warnings"; lit "events"; lit "alerts"] = Some records ->
  iter records = Ok ws ->
  Forall is_dict ws ->
  exists blocks,
    get_alerts (fun _ _ => VDict (entry :: d)) lat lon language
    = Ok (join alert_separator blocks)
    /\ Forall2 (fun w block => _fmt_alert_item w language = Ok block)
         ws blocks.
Proof.
  intros Hsel Hit Hd. rewrite (get_alerts_selected _ _ lat lon language _ Hsel).
  rewrite Hit. cbn [bind].
  destruct (mapM_fmt_dicts language _ Hd) as [blocks Hb].
  exists blocks. rewrite Hb. split; [reflexivity|]. now apply mapM_Forall2.
Qed.

(** X7.  When one item of the selected record list is not a dict,
    [AttributeError] leaves [get_alerts]: no block is returned for the
    other records either. *)
Theorem get_alerts_raises_on_bad_record (entry : str * value)
    (d : list (str * value)) (lat lon : spec_float) (language : str)
    (records : value) (ws : list value) :
  first_present_nonempty (entry :: d)
    [lit "warnings"; lit "events"; lit "alerts"] = Some records ->
  iter records = Ok ws ->
  Exists (fun w => ~ is_dict w) ws ->
  get_alerts (fun _ _ => VDict (entry :: d)) lat lon language
  = Raise AttributeError.
Proof.
  intros Hsel Hit Hx. rewrite (get_alerts_selected _ _ lat lon language _ Hsel).
  rewrite Hit. cbn [bind]. now rewrite (mapM_fmt_non_dict language _ Hx).
Qed.

(** ** Bodies of the wrong shape *)

Lemma get_non_dict (v : value) (k : str) (default : value) :
  ~ is_dict v -> get v k default = Raise AttributeError.
Proof.
  intros H. destruct v; try reflexivity. exfalso. apply H. now eexists.
Qed.

(** X8.  A truthy body that is not a dict (a list, a string, a number)
    makes both operations raise [AttributeError]. *)
Theorem non_dict_body_raises (data : value) (lat lon : spec_float)
    (days : Z) (units language : str) :
  truthy data = true ->
  ~ is_dict data ->
  get_forecast (fun _ _ => data) lat lon days units language
  = Raise AttributeError
  /\ get_alerts (fun _ _ => data) lat lon language = Raise AttributeError.
Proof.
  intros Ht Hn. unfold get_forecast, get_alerts. rewrite Ht. cbn [negb].
  unfold forecast_out, alerts_out. cbn [probe].
  rewrite !(get_non_dict _ _ _ Hn). split; reflexivity.
Qed.

Lemma current_lines_falsy (um : unit_set) (language : str)
    (d : list (str * value)) :
  absent_or_falsy d (lit "current") ->
  (cur <- get (VDict d) (lit "current") (VDict []) ;;
   current_lines um language cur) = Ok [].
Proof.
  unfold absent_or_falsy, get. intros H. cbn [bind].
  destruct (lookup d (lit "current")) as [c|]; unfold current_lines;
    [now rewrite H | reflexivity].
Qed.

Lemma forecast_out_no_current (um : unit_set) (language : str)
    (d : list (str * value)) :
  absent_or_falsy d (lit "current") ->
  forecast_out (VDict d) um language
  = (daily <- get (VDict d) (lit "daily") (VDict []) ;;
     dates <- get_seq daily (lit "time") ;;
     tmax <- get_seq daily (lit "temperature_2m_max") ;;
     tmin <- get_seq daily (lit "temperature_2m_min") ;;
     prcp <- get_seq daily (lit "precipitation_sum") ;;
     wmax <- get_seq daily (lit "windspeed_10m_max") ;;
     wcode <- get_seq daily (lit "weathercode") ;;
     items <- iter dates ;;
     Ok ([[]] ++ day_lines um language 0 items tmax tmin prcp wmax wcode)).
Proof.
  intros H. assert (E := current_lines_falsy um language d H).
  unfold forecast_out. cbn [get bind] in *.
  destruct (current_lines um language _); [|discriminate E].
  injection E as ->. reflexivity.
Qed.

(** X9.  With no current block, a "daily" entry that is present but is not
    a dict ([null], for one) makes [get_forecast] raise [AttributeError]:
    the default of [data.get("daily", {})] only stands in for a missing
    key. *)
Theorem daily_not_dict_raises (entry : str * value) (d : list (str * value))
    (lat lon : spec_float) (days : Z) (units language : str) (v : value) :
  absent_or_falsy (entry :: d) (lit "current") ->
  lookup (entry :: d) (lit "daily") = Some v ->
  ~ is_dict v ->
  get_forecast (fun _ _ => VDict (entry :: d)) lat lon days units language
  = Raise AttributeError.
Proof.
  intros Hc Hd Hn. unfold get_forecast. cbn [truthy negb].
  rewrite (forecast_out_no_current _ _ _ Hc).
  unfold get at 1. rewrite Hd. cbn [bind]. unfold get_seq at 1.
  now rewrite (get_non_dict _ _ _ Hn).
Qed.

(** ** The two halves of the forecast *)

Lemma forecast_out_halves (data : value) (um : unit_set) (language : str) :
  forecast_out data um language
  = (now <- current_part data um language ;;
     ds <- days_part data um language ;;
     Ok (now ++ [[]] ++ ds)).
Proof.
  unfold forecast_out, current_part, days_part.
  destruct (get data (lit "current") (VDict [])) as [cur|]; [|reflexivity].
  cbn [bind].
  destruct (current_lines um language cur) as [now|]; [|reflexivity].
  cbn [bind].
  repeat match goal with
         | |- bind ?c _ = bind (bind ?c _) _ =>
             destruct c; [cbn [bind] | reflexivity]
         end.
  reflexivity.
Qed.

Lemma get_seq_dict (dd : list (str * value)) (k : str) :
  exists v, get_seq (VDict dd) k = Ok v.
Proof. unfold get_seq, get. cbn [bind]. eexists. reflexivity. Qed.

Lemma get_seq_no_time (dd : list (str * value)) :
  absent_or_falsy dd (lit "time") ->
  get_seq (VDict dd) (lit "time") = Ok (VList []).
Proof.
  unfold absent_or_falsy, get_seq, get. cbn [bind].
  destruct (lookup dd (lit "time")) as [t|]; [|reflexivity].
  now intros ->.
Qed.

Lemma days_part_on_dict (dd : list (str * value)) (um : unit_set)
    (language : str) (dates : value) :
  get_seq (VDict dd) (lit "time") = Ok dates ->
  exists tmax tmin prcp wmax wcode,
    (dates' <- get_seq (VDict dd) (lit "time") ;;
     tmax <- get_seq (VDict dd) (lit "temperature_2m_max") ;;
     tmin <- get_seq (VDict dd) (lit "temperature_2m_min") ;;
     prcp <- get_seq (VDict dd) (lit "precipitation_sum") ;;
     wmax <- get_seq (VDict dd) (lit "windspeed_10m_max") ;;
     wcode <- get_seq (VDict dd) (lit "weathercode") ;;
     items <- iter dates' ;;
     Ok (day_lines um language 0 items tmax tmin prcp wmax wcode))
    = (items <- iter dates ;;
       Ok (day_lines um language 0 items tmax tmin prcp wmax wcode)).
Proof.
  intros ->. cbn [bind].
  destruct (get_seq_dict dd (lit "temperature_2m_max")) as [tmax ->].
  destruct (get_seq_dict dd (lit "temperature_2m_min")) as [tmin ->].
  destruct (get_seq_dict dd (lit "precipitation_sum")) as [prcp ->].
  destruct (get_seq_dict dd (lit "windspeed_10m_max")) as [wmax ->].
  destruct (get_seq_dict dd (lit "weathercode")) as [wcode ->].
  cbn [bind]. exists tmax, tmin, prcp, wmax, wcode. reflexivity.
Qed.

Lemma days_part_no_dates (d : list (str * value)) (um : unit_set)
    (language : str) :
  no_dates d -> days_part (VDict d) um language = Ok [].
Proof.
  unfold days_part, get. cbn [bind].
  intros [Hn | (dd & Hd & Ht)].
  - rewrite Hn. reflexivity.
  - rewrite Hd.
    destruct (days_part_on_dict dd um language _ (get_seq_no_time _ Ht))
      as (tmax & tmin & prcp & wmax & wcode & E).
    rewrite E. reflexivity.
Qed.

Lemma current_part_falsy (d : list (str * value)) (um : unit_set)
    (language : str) :
  absent_or_falsy d (lit "current") ->
  current_part (VDict d) um language = Ok [].
Proof. apply current_lines_falsy. Qed.

(** X10.  A non-empty body without a truthy current block and without
    dates gives the empty text. *)
Theorem forecast_without_current_and_dates (entry : str * value)
    (d : list (str * value)) (lat lon : spec_float) (days : Z)
    (units language : str) :
  absent_or_falsy (entry :: d) (lit "current") ->
  no_dates (entry :: d) ->
  get_forecast (fun _ _ => VDict (entry :: d)) lat lon days units language
  = Ok [].
Proof.
  intros Hc Hd. unfold get_forecast. cbn [truthy negb].
  rewrite forecast_out_halves, (current_part_falsy _ _ _ Hc),
    (days_part_no_dates _ _ _ Hd).
  reflexivity.
Qed.

(** ** The trimmed result *)

Lemma dropwhile_idem (p : char -> bool) (s : str) :
  dropwhile p (dropwhile p s) = dropwhile p s.
Proof.
  induction s as [|c s IH]; [reflexivity|].
  simpl. destruct (p c) eqn:E; [exact IH|]. simpl. now rewrite E.
Qed.

Lemma rstrip_idem (s : str) : rstrip (rstrip s) = rstrip s.
Proof. unfold rstrip. now rewrite rev_involutive, dropwhile_idem. Qed.

Lemma strip_idem (s : str) : strip (strip s) = strip s.
Proof.
  unfold strip at 1.
  replace (lstrip (strip s)) with (strip s).
  - unfold strip. apply rstrip_idem.
  - destruct (strip s) as [|c t] eqn:E; [reflexivity|].
    apply strip_head in E. unfold lstrip. simpl. now rewrite E.
Qed.

(** X11.  Whatever [get_forecast] returns has no white space at either
    end: trimming it again changes nothing. *)
Theorem get_forecast_is_trimmed (om : str -> value -> value)
    (lat lon : spec_float) (days : Z) (units language : str) (out : str) :
  get_forecast om lat lon days units language = Ok out ->
  strip out = out.
Proof.
  unfold get_forecast. destruct (negb (truthy _)).
  - intros H. injection H as <-. vm_compute. reflexivity.
  - destruct (forecast_out _ _ _) as [lines|]; [cbn [bind] | discriminate].
    intros H. injection H as <-. apply strip_idem.
Qed.

(** ** A forecast with the current block only *)

Lemma table_texts_end_plain (language : str) :
  forall k text, In (k, text) (table_of language) -> ends_plain text = true.
Proof.
  assert (H : forallb (fun kv => ends_plain (snd kv)) (table_of language)
              = true).
  { unfold table_of. destruct (is_es language); vm_compute; reflexivity. }
  rewrite forallb_forall in H. intros k text Hin. exact (H (k, text) Hin).
Qed.

Lemma ends_plain_split (text : str) :
  ends_plain text = true ->
  exists t c, text = t ++ [c] /\ isspace c = false.
Proof.
  unfold ends_plain. destruct (rev text) as [|c r] eqn:E; [discriminate|].
  intros H. exists (rev r), c. split.
  - rewrite <- (rev_involutive text), E. reflexivity.
  - now apply negb_true_iff.
Qed.

(** A line with no white space at its ends, followed by the separator, is
    trimmed back to the line. *)
Lemma strip_line_then_blank (h : char) (t a : str) (c : char) :
  isspace h = false -> isspace c = false -> h :: t = a ++ [c] ->
  strip (join nl [h :: t; []]) = h :: t.
Proof.
  intros Hh Hc E. cbn [join]. rewrite app_nil_r. cbn [app].
  rewrite strip_keeps_front by exact Hh.
  rewrite app_comm_cons, E, <- app_assoc. cbn [app].
  now rewrite rstrip_app_stop.
Qed.

Lemma current_part_known_code (d c : list (str * value)) (um : unit_set)
    (language : str) (z : Z) :
  lookup d (lit "current") = Some (VDict c) ->
  truthy (VDict c) = true ->
  lookup c (lit "weathercode") = Some (VInt z) ->
  current_part (VDict d) um language
  = Ok [ lit "Ahora: " ++ str_of (field c (lit "temperature_2m"))
         ++ lit "° | Viento: " ++ str_of (field c (lit "windspeed_10m"))
         ++ lit " " ++ windspeed_unit um ++ lit " | Cielo: "
         ++ table_get (table_of language) z (lit "Código " ++ str_of_Z z) ].
Proof.
  intros Hc Ht Hw. unfold current_part, get. rewrite Hc. cbn [bind].
  unfold current_lines. rewrite Ht. unfold get. cbn [bind].
  rewrite Hw. rewrite code_to_text_int. cbn [bind].
  unfold field, table_of. reflexivity.
Qed.

(** X12.  A body whose current block carries a known integer code and that
    has no dates gives exactly the current line: temperature, wind speed
    with the unit of the request, and the text of the code; a missing
    temperature or wind speed is printed as [None], and the separator after
    the line is trimmed away. *)
Theorem forecast_current_only (entry : str * value) (d : list (str * value))
    (lat lon : spec_float) (days : Z) (units language : str)
    (c : list (str * value)) (z : Z) :
  lookup (entry :: d) (lit "current") = Some (VDict c) ->
  truthy (VDict c) = true ->
  lookup c (lit "weathercode") = Some (VInt z) ->
  In z (keys map_es) ->
  no_dates (entry :: d) ->
  exists sky,
    In (z, sky) (table_of language)
    /\ get_forecast (fun _ _ => VDict (entry :: d)) lat lon days units language
       = Ok (lit "Ahora: " ++ str_of (field c (lit "temperature_2m"))
             ++ lit "° | Viento: " ++ str_of (field c (lit "windspeed_10m"))
             ++ lit " " ++ windspeed_unit (_units_map units)
             ++ lit " | Cielo: " ++ sky).
Proof.
  intros Hc Ht Hw Hz Hd.
  set (sky := table_get (table_of language) z (lit "Código " ++ str_of_Z z)).
  assert (Hin : In (z, sky) (table_of language)).
  { apply table_get_hit. unfold table_of.
    destruct (is_es language); [|rewrite <- keys_aligned]; exact Hz. }
  exists sky. split; [exact Hin|].
  destruct (ends_plain_split _ (table_texts_end_plain language _ _ Hin))
    as (t & e & Esky & He).
  unfold get_forecast. cbn [truthy negb].
  rewrite forecast_out_halves,
    (current_part_known_code _ _ _ language _ Hc Ht Hw),
    (days_part_no_dates _ _ _ Hd).
  cbn [bind app]. fold sky. f_equal.
  match goal with
  | |- strip (join nl [?line; []]) = _ =>
      assert (E : exists h r, line = h :: r /\ isspace h = false)
        by (eexists; eexists; split; reflexivity);
      destruct E as (h & r & E & Hh)
  end.
  rewrite E.
  apply strip_line_then_blank
    with (a := lit "Ahora: " ++ str_of (field c (lit "temperature_2m"))
               ++ lit "° | Viento: "
               ++ str_of (field c (lit "windspeed_10m"))
               ++ lit " " ++ windspeed_unit (_units_map units)
               ++ lit " | Cielo: " ++ t) (c := e);
    [exact Hh | exact He |].
  rewrite <- E, Esky. repeat rewrite <- app_assoc. reflexivity.
Qed.

(** ** When the forecast returns *)

Lemma code_to_text_returns (code : value) (language : str) :
  (exists sky, _code_to_text code language = Ok sky)
  <-> (exists z, int_of code = Ok z).
Proof.
  unfold _code_to_text. destruct (int_of code) as [z|e]; cbn [bind].
  - split; intros _; eexists; reflexivity.
  - split; intros [x H]; discriminate H.
Qed.

Lemma current_part_returns (d : list (str * value)) (um : unit_set)
    (language : str) :
  (exists now, current_part (VDict d) um language = Ok now) <-> current_ok d.
Proof.
  unfold current_part, current_ok, absent_or_falsy, get. cbn [bind].
  destruct (lookup d (lit "current")) as [v|].
  2:{ split; [intros _; now left | intros _; now exists []]. }
  unfold current_lines. destruct (truthy v) eqn:Ht.
  2:{ split; [intros _; now left | intros _; now exists []]. }
  destruct (is_dict_dec v) as [[c ->]|Hn].
  - unfold get. cbn [bind]. fold (field c (lit "weathercode")).
    destruct (_code_to_text (field c (lit "weathercode")) language)
      as [sky|e] eqn:E; cbn [bind].
    + split; [|intros _; eexists; reflexivity].
      intros _. right. exists c. split; [reflexivity|].
      apply (code_to_text_returns _ language). now exists sky.
    + split; [intros [x H]; discriminate H|].
      intros [H|(c' & Hc & Hz)]; [discriminate H|].
      injection Hc as <-.
      apply (code_to_text_returns _ language) in Hz.
      destruct Hz as [sky Hs]. rewrite Hs in E. discriminate E.
  - rewrite (get_non_dict _ _ _ Hn). cbn [bind].
    split; [intros [x H]; discriminate H|].
    intros [H|(c & Hc & _)]; [discriminate H|].
    injection Hc as ->. exfalso. apply Hn. now eexists.
Qed.

Lemma iter_returns (v : value) :
  (exists items, iter v = Ok items) <-> iterable v.
Proof.
  destruct v; simpl; split; try tauto;
    try (intros [x H]; discriminate H); try (intros _; eexists; reflexivity).
Qed.

Lemma days_part_returns (d : list (str * value)) (um : unit_set)
    (language : str) :
  (exists ds, days_part (VDict d) um language = Ok ds) <-> daily_ok d.
Proof.
  destruct (lookup d (lit "daily")) as [v|] eqn:Hd.
  2:{ split.
      - intros _. left. exact Hd.
      - intros _. exists []. apply days_part_no_dates. left. exact Hd. }
  unfold daily_ok. rewrite Hd.
  unfold days_part, get. rewrite Hd. cbn [bind].
  destruct (is_dict_dec v) as [[dd ->]|Hn].
  2:{ unfold get_seq at 1. rewrite (get_non_dict _ _ _ Hn). cbn [bind].
      split; [intros [x H]; discriminate H|].
      intros [H|(dd & Hv & _)]; [discriminate H|].
      injection Hv as ->. exfalso. apply Hn. now eexists. }
  destruct (get_seq_dict dd (lit "time")) as [dates Hdates].
  destruct (days_part_on_dict dd um language _ Hdates)
    as (tmax & tmin & prcp & wmax & wcode & E).
  rewrite E. clear E.
  assert (Hiter : (exists items, iter dates = Ok items)
                  <-> (absent_or_falsy dd (lit "time")
                       \/ exists t, lookup dd (lit "time") = Some t
                                    /\ iterable t)).
  { unfold get_seq, get, absent_or_falsy in *. cbn [bind] in Hdates.
    injection Hdates as <-.
    destruct (lookup dd (lit "time")) as [t|].
    - destruct (truthy t) eqn:Ht.
      + rewrite iter_returns. split.
        * intros Hi. right. now exists t.
        * intros [H|(t' & Ht' & Hi)]; [discriminate H|].
          now injection Ht' as <-.
      + split; [intros _; now left | intros _; now exists []].
    - split; [intros _; now left | intros _; now exists []]. }
  split.
  - intros [ds H]. right. exists dd. split; [reflexivity|].
    apply Hiter. destruct (iter dates) as [items|]; [|discriminate H].
    now exists items.
  - intros [H|(dd' & Hv & Ht)]; [discriminate H|].
    injection Hv as <-. apply Hiter in Ht. destruct Ht as [items ->].
    cbn [bind]. eexists. reflexivity.
Qed.

(** X13.  On a non-empty body that is a dict, [get_forecast] returns a text
    exactly when the current block is missing, falsy, or a dict whose
    "weathercode" entry [int()] accepts, and the "daily" entry is missing or
    a dict whose "time" entry is missing, falsy or iterable.  In every
    other case an exception leaves the operation. *)
Theorem get_forecast_returns_iff (entry : str * value)
    (d : list (str * value)) (lat lon : spec_float) (days : Z)
    (units language : str) :
  (exists out,
     get_forecast (fun _ _ => VDict (entry :: d)) lat lon days units language
     = Ok out)
  <-> current_ok (entry :: d) /\ daily_ok (entry :: d).
Proof.
  unfold get_forecast. cbn [truthy negb]. rewrite forecast_out_halves.
  rewrite <- (current_part_returns (entry :: d) (_units_map units) language).
  rewrite <- (days_part_returns (entry :: d) (_units_map units) language).
  destruct (current_part _ _ _) as [now|]; cbn [bind].
  - destruct (days_part _ _ _) as [ds|]; cbn [bind].
    + split; [intros _; split; eexists; reflexivity|].
      intros _. eexists. reflexivity.
    + split; [intros [x H]; discriminate H|].
      intros [_ [x H]]. discriminate H.
  - split; [intros [x H]; discriminate H|].
    intros [[x H] _]. discriminate H.
Qed.

(** ** The day loop on any values *)

Lemma flat_map_bounded_length {A} (f : nat -> list A) (m n : nat) :
  (forall i, length (f i) <= 1) ->
  (forall i, m <= i -> f i = []) ->
  length (flat_map f (seq 0 n)) <= Nat.min m n.
Proof.
  intros H1 H0. induction n as [|n IH]; [simpl; lia|].
  rewrite seq_S, flat_map_app, length_app. simpl. rewrite app_nil_r.
  destruct (Nat.lt_ge_cases n m) as [Hlt|Hge].
  - specialize (H1 n). lia.
  - rewrite (H0 n Hge). simpl. lia.
Qed.

Lemma day_lines_length (um : unit_set) (language : str)
    (dates : list value) (tmax tmin prcp wmax wcode : value) (i : nat) :
  length (day_lines um language i dates tmax tmin prcp wmax wcode)
  <= length dates.
Proof.
  revert i. induction dates as [|d dates IH]; intros i; simpl; [lia|].
  specialize (IH (S i)).
  destruct (day_line um language i d tmax tmin prcp wmax wcode); simpl; lia.
Qed.

(** X14.  The loop never emits more day lines than there are dates, whatever
    the other five values are; when all six are lists it emits at most as
    many lines as the shortest of them has entries, whatever the entries
    are. *)
Theorem day_lines_at_most_shortest (um : unit_set) (language : str)
    (dates tmax tmin prcp wmax wcode : list value)
    (vmax vmin vprcp vwind vcode : value) :
  length (day_lines um language 0 dates vmax vmin vprcp vwind vcode)
  <= length dates
  /\ length (day_lines um language 0 dates (VList tmax) (VList tmin)
               (VList prcp) (VList wmax) (VList wcode))
     <= Nat.min (length dates)
          (Nat.min (length tmax)
             (Nat.min (length tmin)
                (Nat.min (length prcp)
                   (Nat.min (length wmax) (length wcode))))).
Proof.
  split; [apply day_lines_length|].
  assert (E := day_lines_from um language tmax tmin prcp wmax wcode dates []).
  simpl in E. rewrite E.
  set (m := Nat.min (length dates) _).
  replace m with (Nat.min m (length dates)) by (subst m; lia).
  apply flat_map_bounded_length; intros i; unfold day_at.
  - destruct (nth_error dates i), (nth_error tmax i), (nth_error tmin i),
      (nth_error prcp i), (nth_error wmax i), (nth_error wcode i);
      simpl; try lia.
    destruct (_code_to_text _ language); simpl; lia.
  - intros Hi.
    assert (Hnone :
      nth_error dates i = None \/ nth_error tmax i = None
      \/ nth_error tmin i = None \/ nth_error prcp i = None
      \/ nth_error wmax i = None \/ nth_error wcode i = None).
    { rewrite !nth_error_None. subst m. lia. }
    destruct (nth_error dates i); [|reflexivity].
    destruct (nth_error tmax i); [|reflexivity].
    destruct (nth_error tmin i); [|reflexivity].
    destruct (nth_error prcp i); [|reflexivity].
    destruct (nth_error wmax i); [|reflexivity].
    destruct (nth_error wcode i); [|reflexivity].
    exfalso. repeat (destruct Hnone as [Hnone|Hnone]; [discriminate|]).
    discriminate.
Qed.

(** X15.  The lines of the first dates do not depend on the dates that
    follow: the loop over [a ++ b] emits the lines of [a], then those of
    [b] at the indices after [a]. *)
Theorem day_lines_app (um : unit_set) (language : str) (a b : list value)
    (tmax tmin prcp wmax wcode : value) (i : nat) :
  day_lines um language i (a ++ b) tmax tmin prcp wmax wcode
  = day_lines um language i a tmax tmin prcp wmax wcode
    ++ day_lines um language (i + length a) b tmax tmin prcp wmax wcode.
Proof.
  revert i. induction a as [|d a IH]; intros i.
  - simpl. now rewrite Nat.add_0_r.
  - cbn [app day_lines length]. rewrite IH.
    replace (S i + length a) with (i + S (length a)) by lia.
    destruct (day_line um language i d tmax tmin prcp wmax wcode);
      reflexivity.
Qed.

(** ** When the alert lookup returns *)

Lemma dicts_or_not (ws : list value) :
  Forall is_dict ws \/ Exists (fun w => ~ is_dict w) ws.
Proof.
  induction ws as [|w ws [IH|IH]].
  - left. constructor.
  - destruct (is_dict_dec w) as [Hd|Hn].
    + left. now constructor.
    + right. now left.
  - right. now right.
Qed.

(** X16.  On a non-empty body that is a dict, [get_alerts] returns a text
    exactly when no key holds a truthy record list, or the selected value
    can be iterated and every item is a dict. *)
Theorem get_alerts_returns_iff (entry : str * value)
    (d : list (str * value)) (lat lon : spec_float) (language : str) :
  (exists text,
     get_alerts (fun _ _ => VDict (entry :: d)) lat lon language = Ok text)
  <-> match first_present_nonempty (entry :: d)
              [lit "warnings"; lit "events"; lit "alerts"] with
      | None => True
      | Some records =>
          exists ws, iter records = Ok ws /\ Forall is_dict ws
      end.
Proof.
  destruct (first_present_nonempty _ _) as [records|] eqn:Hsel.
  - rewrite (get_alerts_selected _ _ lat lon language _ Hsel).
    destruct (iter records) as [ws|e]; cbn [bind].
    + destruct (dicts_or_not ws) as [Hd|Hx].
      * destruct (mapM_fmt_dicts language _ Hd) as [blocks ->]. cbn [bind].
        split; [intros _; now exists ws | intros _; eexists; reflexivity].
      * rewrite (mapM_fmt_non_dict language _ Hx). cbn [bind].
        split; [intros [x H]; discriminate H|].
        intros (ws' & Hw & Hd). injection Hw as <-. exfalso.
        apply Exists_exists in Hx. destruct Hx as (w & Hin & Hn).
        rewrite Forall_forall in Hd. exact (Hn (Hd w Hin)).
    + split; [intros [x H]; discriminate H|].
      intros (ws & H & _). discriminate H.
  - unfold get_alerts, alerts_out. cbn [truthy negb].
    rewrite probe_dict, Hsel. cbn [bind truthy negb].
    split; [trivial | intros _; eexists; reflexivity].
Qed.

(** ** Codes that are not integers *)

Lemma table_get_default (table : list (Z * str)) (k : Z) (d1 d2 : str) :
  In k (keys table) -> table_get table k d1 = table_get table k d2.
Proof.
  induction table as [|[k' text] table IH]; simpl; [tauto|].
  intros [->|Hin].
  - now rewrite Z.eqb_refl.
  - destruct (k' =? k)%Z; [reflexivity | now apply IH].
Qed.

(** X17.  A code that is not an integer but that [int()] accepts (a finite
    float, a boolean) is looked up under its integer value: when that value
    is a key, the text is the one of the integer code; when it is not, the
    fallback shows the code as it was given, not its integer value. *)
Theorem code_looked_up_as_integer (code : value) (z : Z) (language : str) :
  int_of code = Ok z ->
  (In z (keys map_es) ->
   _code_to_text code language = _code_to_text (VInt z) language)
  /\ (~ In z (keys map_es) ->
      _code_to_text code language = Ok (lit "Código " ++ str_of code)).
Proof.
  intros H. unfold _code_to_text. rewrite H. cbn [int_of bind]. split.
  - intros Hin. f_equal. apply table_get_default.
    destruct (is_es language); [|rewrite <- keys_aligned]; exact Hin.
  - intros Hn. f_equal. apply table_get_miss.
    destruct (is_es language); [|rewrite <- keys_aligned]; exact Hn.
Qed.

End More.

(* ================================================================== *)
(** * Runs on concrete documents                                        *)
(* ================================================================== *)

#[local] Existing Instance example_builtins.

(** ** Where the specification and the code part *)

(** C2, refuted as stated.  With [current = {}] and one day, the returned
    text is the day line alone: it holds no line feed at all, so no blank
    line precedes the day entry. *)
Lemma separator_trimmed_counterexample :
  get_forecast (fun _ _ => doc_no_current) lat_madrid lon_madrid 3
    (lit "metric") (lit "es")
  = Ok (lit "2024-01-01: máx 10°, mín 1°, lluvia 0 mm, viento máx 5 kmh, Despejado")
  /\ contains
       (lit "2024-01-01: máx 10°, mín 1°, lluvia 0 mm, viento máx 5 kmh, Despejado")
       nl
     = false.
Proof. split; vm_compute; reflexivity. Qed.

(** C3, refuted as stated.  For the English locale the fallback of code 9999
    is "Código 9999", which does not contain the word "Code". *)
Lemma code_fallback_en_counterexample :
  _code_to_text (VInt 9999) (lit "en") = Ok (lit "Código 9999")
  /\ contains (lit "Código 9999") (lit "Code") = false
  /\ _code_to_text (VInt 9999) (lit "en") <> Ok (lit "Code 9999").
Proof.
  split; [|split]; try (vm_compute; reflexivity).
  intros H. vm_compute in H. discriminate H.
Qed.


(** C5, refuted as stated.  The empty response object has none of the three
    keys, and the answer is the could-not-fetch message, not the
    no-active-alerts one. *)
Lemma empty_object_counterexample :
  get_alerts (fun _ _ => VDict []) lat_madrid lon_madrid (lit "es")
  = Ok alerts_failed
  /\ get_alerts (fun _ _ => VDict []) lat_madrid lon_madrid (lit "es")
     <> Ok no_alerts.
Proof.
  split; [reflexivity|]. intros H. vm_compute in H. discriminate H.
Qed.

(** C6, refuted as stated.  " imperial" lower-cased and trimmed is
    "imperial", so the resolver of the specification answers the imperial
    set; [_units_map] does not trim and answers the metric set. *)
Lemma units_not_trimmed_counterexample :
  strip (lower (lit " imperial")) = lit "imperial"
  /\ resolve_spec (lit " imperial") = imperial_units
  /\ _units_map (lit " imperial") = metric_units
  /\ _units_map (lit " imperial") <> resolve_spec (lit " imperial").
Proof.
  split; [|split; [|split]]; try (vm_compute; reflexivity).
  intros H. vm_compute in H. discriminate H.
Qed.

(** C8, refuted as stated.  Both keys are present, "headline" holds the
    empty string, and the headline field is taken from "event". *)
Lemma headline_empty_counterexample :
  lookup alert_empty_headline (lit "headline") = Some (VStr [])
  /\ lookup alert_empty_headline (lit "event") = Some (VStr (lit "Tormenta"))
  /\ probe (VDict alert_empty_headline) [lit "headline"; lit "event"]
       (VStr (lit "Alerta"))
     = Ok (VStr (lit "Tormenta"))
  /\ _fmt_alert_item (VDict alert_empty_headline) (lit "es")
     = Ok (join nl [ lit "⚠️ Tormenta";
                     lit "Severidad: desconocida";
                     lit "Desde: N/D  Hasta: N/D";
                     lit "Fuente: N/D";
                     lit "Detalle: Sin descripción" ] ++ nl).
Proof. repeat (split; [vm_compute; reflexivity|]). vm_compute; reflexivity. Qed.

(** ** The theorems at concrete inputs *)

Lemma separator_after_trim_witness :
  exists cur now ds,
    get doc_current_and_day (lit "current") (VDict []) = Ok cur
    /\ current_lines (_units_map (lit "metric")) (lit "es") cur = Ok now
    /\ forecast_out doc_current_and_day (_units_map (lit "metric")) (lit "es")
       = Ok (now ++ [[]] ++ ds)
    /\ text_current_and_day = strip (join nl (now ++ [[]] ++ ds))
    /\ (truthy cur = false ->
        now = [] /\ text_current_and_day = strip (join nl ds)
        /\ startswith text_current_and_day nl = false)
    /\ (truthy cur = true -> ds <> [] ->
        exists line rest,
          now = [line] /\ text_current_and_day = line ++ nl ++ nl ++ rest).
Proof.
  apply (separator_after_trim doc_current_and_day lat_madrid lon_madrid 3
           (lit "metric") (lit "es") text_current_and_day).
  - reflexivity.
  - vm_compute. reflexivity.
Defined.

Lemma code_to_text_fallback_witness :
  ~ In 9999%Z (keys map_es)
  /\ _code_to_text (VInt 9999) (lit "en")
     = Ok (lit "Código " ++ str_of_Z 9999).
Proof.
  assert (H : ~ In 9999%Z (keys map_es)).
  { intros H. vm_compute in H. intuition discriminate. }
  split; [exact H | exact (code_to_text_fallback 9999 (lit "en") H)].
Defined.


Lemma units_map_lower_only_witness :
  (lower (lit "IMPERIAL") = lit "imperial"
   /\ _units_map (lit "IMPERIAL") = imperial_units)
  /\ (lower (lit " imperial") <> lit "imperial"
      /\ _units_map (lit " imperial") = metric_units).
Proof.
  split.
  - split; [reflexivity|].
    apply (proj1 (units_map_lower_only (lit "IMPERIAL"))). reflexivity.
  - assert (H : lower (lit " imperial") <> lit "imperial").
    { intros H. vm_compute in H. discriminate H. }
    split; [exact H|].
    exact (proj2 (units_map_lower_only (lit " imperial")) H).
Defined.

Lemma headline_priority_witness :
  exists rest,
    _fmt_alert_item (VDict alert_both) (lit "en")
    = Ok (lit "⚠️ " ++ lit "Aviso naranja" ++ nl ++ rest).
Proof.
  exact (headline_priority alert_both (lit "en")
           (VStr (lit "Aviso naranja")) (VStr (lit "Tormenta"))
           eq_refl eq_refl).
Defined.

Lemma falsy_body_is_fetch_failure_witness :
  truthy (VDict []) = false
  /\ get_forecast (fun _ _ => VDict []) lat_madrid lon_madrid 3
       (lit "metric") (lit "es")
     = Ok forecast_failed
  /\ get_alerts (fun _ _ => VDict []) lat_madrid lon_madrid (lit "es")
     = Ok alerts_failed.
Proof.
  destruct (falsy_body_is_fetch_failure (VDict []) lat_madrid lon_madrid 3
              (lit "metric") (lit "es") eq_refl) as (Hf & _ & Ha & _).
  split; [reflexivity|]. split; [exact Hf | exact Ha].
Defined.

Lemma get_forecast_clamps_days_witness :
  20%Z <> Z.max 1 (Z.min 16 20)
  /\ get_forecast (serves_days 20 doc_current_and_day) lat_madrid lon_madrid
       20 (lit "metric") (lit "es")
     = Ok forecast_failed
  /\ get_forecast (serves_days 16 doc_current_and_day) lat_madrid lon_madrid
       20 (lit "metric") (lit "es")
     = Ok text_current_and_day.
Proof.
  assert (H : 20%Z <> Z.max 1 (Z.min 16 20)) by discriminate.
  split; [exact H|]. split.
  - exact (proj2 (proj2 (proj2 (proj2 (proj2 (proj2
             (get_forecast_clamps_days (fun _ _ => VNone) lat_madrid
                lon_madrid 20 (lit "metric") (lit "es")))))))
             doc_current_and_day 20%Z H).
  - vm_compute. reflexivity.
Defined.

(** ** Further runs *)

Example forecast_current_and_day :
  get_forecast (fun _ _ => doc_current_and_day) lat_madrid lon_madrid 20
    (lit "metric") (lit "es")
  = Ok text_current_and_day.
Proof. vm_compute. reflexivity. Qed.

Example code_known_en : _code_to_text (VInt 95) (lit "EN-us") = Ok (lit "Thunderstorm").
Proof. reflexivity. Qed.

Example code_known_es : _code_to_text (VInt 95) (lit "Es") = Ok (lit "Tormenta").
Proof. reflexivity. Qed.

Example code_float_truncated :
  _code_to_text (VFloat (S754_finite false 7 (-1))) (lit "es")
  = Ok (lit "Nublado").
Proof. reflexivity. Qed.

(** A record that is not a dict has no [get]: the exception leaves
    [get_alerts] as well. *)
Example get_alerts_raises_on_scalar_record :
  get_alerts (fun _ _ => VDict [(lit "warnings", VList [VInt 1])])
    lat_madrid lon_madrid (lit "es")
  = Raise AttributeError.
Proof. reflexivity. Qed.

Example alerts_two_records :
  get_alerts
    (fun _ _ => VDict [(lit "events", VList [VDict alert_both; VDict []])])
    lat_madrid lon_madrid (lit "en")
  = Ok (join nl [ lit "⚠️ Aviso naranja";
                  lit "Severity: desconocida";
                  lit "From: N/A  Until: N/A";
                  lit "Source: N/A";
                  lit "Details: Sin descripción";
                  [];
                  lit "---";
                  lit "⚠️ Alerta";
                  lit "Severity: desconocida";
                  lit "From: N/A  Until: N/A";
                  lit "Source: N/A";
                  lit "Details: Sin descripción" ] ++ nl).
Proof. vm_compute. reflexivity. Qed.

(** ** The further properties at concrete inputs *)

Example units_map_imperial_mixed_case :
  _units_map (lit "ImPeRiAl") = imperial_units
  /\ _units_map (lit "imperial ") = metric_units
  /\ _units_map [] = metric_units.
Proof. repeat split. Qed.

Lemma known_code_text_witness :
  In 95%Z (keys map_es)
  /\ exists text,
       _code_to_text (VInt 95) (lit "en") = Ok text
       /\ In (95%Z, text) (table_of (lit "en"))
       /\ (forall other, In (95%Z, other) (table_of (lit "en")) ->
           other = text)
       /\ text <> []
       /\ text <> lit "Código " ++ str_of_Z 95.
Proof.
  assert (H : In 95%Z (keys map_es)).
  { vm_compute. do 25 right. left. reflexivity. }
  split; [exact H | exact (known_code_text 95 (lit "en") H)].
Defined.

Lemma fmt_alert_item_dict_or_raise_witness :
  (exists body,
     _fmt_alert_item (VDict alert_both) (lit "es")
     = Ok (lit "⚠️ " ++ body ++ nl))
  /\ _fmt_alert_item (VStr (lit "storm")) (lit "es") = Raise AttributeError.
Proof.
  split.
  - apply (proj1 (fmt_alert_item_dict_or_raise (VDict alert_both) (lit "es"))).
    exists alert_both. reflexivity.
  - apply (proj2 (fmt_alert_item_dict_or_raise (VStr (lit "storm"))
                    (lit "es"))).
    intros [d H]. discriminate H.
Defined.

Lemma fmt_alert_item_defaults_witness :
  _fmt_alert_item (VDict []) (lit "en") = Ok (default_block (lit "en")).
Proof.
  apply (fmt_alert_item_defaults [] (lit "en")).
  intros k _. exact I.
Defined.

Lemma get_alerts_formats_every_record_witness :
  exists blocks,
    get_alerts
      (fun _ _ => VDict [(lit "events", VList [VDict alert_both; VDict []])])
      lat_madrid lon_madrid (lit "en")
    = Ok (join alert_separator blocks)
    /\ Forall2 (fun w block => _fmt_alert_item w (lit "en") = Ok block)
         [VDict alert_both; VDict []] blocks.
Proof.
  apply (get_alerts_formats_every_record
           (lit "events", VList [VDict alert_both; VDict []]) []
           lat_madrid lon_madrid (lit "en")
           (VList [VDict alert_both; VDict []])
           [VDict alert_both; VDict []]).
  - reflexivity.
  - reflexivity.
  - repeat constructor; eexists; reflexivity.
Defined.

Lemma get_alerts_raises_on_bad_record_witness :
  get_alerts (fun _ _ => VDict [(lit "warnings", VStr (lit "gale"))])
    lat_madrid lon_madrid (lit "es")
  = Raise AttributeError.
Proof.
  apply (get_alerts_raises_on_bad_record
           (lit "warnings", VStr (lit "gale")) []
           lat_madrid lon_madrid (lit "es") (VStr (lit "gale"))
           (map (fun c => VStr [c]) (lit "gale"))).
  - reflexivity.
  - reflexivity.
  - left. intros [d H]. discriminate H.
Defined.

Lemma non_dict_body_raises_witness :
  get_forecast (fun _ _ => VList [VInt 1]) lat_madrid lon_madrid 3
    (lit "metric") (lit "es")
  = Raise AttributeError
  /\ get_alerts (fun _ _ => VList [VInt 1]) lat_madrid lon_madrid (lit "es")
     = Raise AttributeError.
Proof.
  apply (non_dict_body_raises (VList [VInt 1]) lat_madrid lon_madrid 3
           (lit "metric") (lit "es")).
  - reflexivity.
  - intros [d H]. discriminate H.
Defined.

Lemma daily_not_dict_raises_witness :
  get_forecast (fun _ _ => VDict [(lit "daily", VNone)])
    lat_madrid lon_madrid 3 (lit "metric") (lit "es")
  = Raise AttributeError.
Proof.
  apply (daily_not_dict_raises (lit "daily", VNone) []
           lat_madrid lon_madrid 3 (lit "metric") (lit "es") VNone).
  - exact I.
  - reflexivity.
  - intros [d H]. discriminate H.
Defined.

Lemma forecast_without_current_and_dates_witness :
  get_forecast (fun _ _ => VDict [(lit "elevation", VInt 650)])
    lat_madrid lon_madrid 3 (lit "metric") (lit "es")
  = Ok [].
Proof.
  apply (forecast_without_current_and_dates (lit "elevation", VInt 650) []
           lat_madrid lon_madrid 3 (lit "metric") (lit "es")).
  - exact I.
  - left. reflexivity.
Defined.

Lemma get_forecast_is_trimmed_witness :
  strip text_current_and_day = text_current_and_day.
Proof.
  apply (get_forecast_is_trimmed (fun _ _ => doc_current_and_day)
           lat_madrid lon_madrid 3 (lit "metric") (lit "es")).
  vm_compute. reflexivity.
Defined.

Lemma forecast_current_only_witness :
  exists sky,
    In (3%Z, sky) (table_of (lit "es"))
    /\ get_forecast
         (fun _ _ =>
            VDict [(lit "current",
                     VDict [(lit "windspeed_10m", VInt 9);
                            (lit "weathercode", VInt 3)])])
         lat_madrid lon_madrid 3 (lit "imperial") (lit "es")
       = Ok (lit "Ahora: "
             ++ str_of (field [(lit "windspeed_10m", VInt 9);
                               (lit "weathercode", VInt 3)]
                          (lit "temperature_2m"))
             ++ lit "° | Viento: "
             ++ str_of (field [(lit "windspeed_10m", VInt 9);
                               (lit "weathercode", VInt 3)]
                          (lit "windspeed_10m"))
             ++ lit " " ++ windspeed_unit (_units_map (lit "imperial"))
             ++ lit " | Cielo: " ++ sky).
Proof.
  apply (forecast_current_only
           (lit "current",
             VDict [(lit "windspeed_10m", VInt 9);
                    (lit "weathercode", VInt 3)]) []
           lat_madrid lon_madrid 3 (lit "imperial") (lit "es")
           [(lit "windspeed_10m", VInt 9); (lit "weathercode", VInt 3)] 3).
  - reflexivity.
  - reflexivity.
  - reflexivity.
  - vm_compute. do 3 right. left. reflexivity.
  - left. reflexivity.
Defined.

Lemma code_looked_up_as_integer_witness :
  int_of (VFloat (S754_finite false 7 (-1))) = Ok 3%Z
  /\ _code_to_text (VFloat (S754_finite false 7 (-1))) (lit "en")
     = _code_to_text (VInt 3) (lit "en")
  /\ int_of (VBool true) = Ok 1%Z
  /\ _code_to_text (VBool true) (lit "es") = _code_to_text (VInt 1) (lit "es").
Proof.
  split; [reflexivity|]. split.
  - apply (proj1 (code_looked_up_as_integer
                    (VFloat (S754_finite false 7 (-1))) 3 (lit "en")
                    eq_refl)).
    vm_compute. do 3 right. left. reflexivity.
  - split; [reflexivity|].
    apply (proj1 (code_looked_up_as_integer (VBool true) 1 (lit "es")
                    eq_refl)).
    vm_compute. right. left. reflexivity.
Defined.

(** The current-only forecast, in imperial units and without a
    temperature. *)
Example forecast_current_only_text :
  get_forecast
    (fun _ _ =>
       VDict [(lit "current",
                VDict [(lit "windspeed_10m", VInt 9);
                       (lit "weathercode", VInt 3)])])
    lat_madrid lon_madrid 3 (lit "imperial") (lit "es")
  = Ok (lit "Ahora: None° | Viento: 9 mph | Cielo: Nublado").
Proof. vm_compute. reflexivity. Qed.
